(** * Baseline load model: historical averages and the prediction fallback chain

    A shallow embedding of [baseline_model.py]: the trainer
    ([read_std_pjm], [load_pjm_glob], [train_hist_avg]) and the predictor
    ([predict_day]).

    Conventions of the embedding.
    - A pandas data frame is the list of its rows, in row order.
    - Loads are float64 in the source; here they are exact rationals ([Qc]),
      so a mean is the exact mean and there is neither NaN nor infinity.
    - A pandas [Timestamp] (time-zone naive) is its number of nanoseconds
      since 1970-01-01T00:00.
    - Strings are ASCII strings: [str.lower], [str.upper] and [str.strip]
      act on the ASCII letters and the ASCII white space.
    - Files live in a store [Store]; a Python function that touches files is a
      computation in the monad [IO], which threads the store and may raise.
      What [print] writes is not modelled. *)

From Stdlib Require Import Ascii String QArith Qcanon Qround.
From stdpp Require Import base tactics option list sorting strings gmap numbers.

Local Open Scope Z_scope.
Local Open Scope string_scope.

(** ** Exceptions and the monad of file-touching computations *)

Inductive exn : Set :=
  | FileNotFoundError
  | ValueError
  | IndexError
  | ParserError.

Inductive result (A : Type) : Type :=
  | Ok (a : A)
  | Raise (e : exn).
Arguments Ok {A} a.
Arguments Raise {A} e.

Global Instance result_ret : MRet result := @Ok.
Global Instance result_bind : MBind result := λ A B f m,
  match m with
  | Ok a => f a
  | Raise e => Raise e
  end.

(** ** Numbers *)

(** [DataFrame.mean] of a column: the sum over the count. *)
Definition mean (xs : list Qc) : Qc :=
  (foldr Qcplus 0 xs / Q2Qc (inject_Z (Z.of_nat (length xs))))%Qc.

(** Python's [round(x)] on a float: the nearest integer, a tie going to the
    even neighbour. *)
Definition round (x : Qc) : Z :=
  let f := Qfloor x in
  match Qcompare (x - inject_Z f) (1 # 2) with
  | Lt => f
  | Gt => f + 1
  | Eq => if Z.even f then f else f + 1
  end.

(** ** Timestamps *)

Definition Timestamp := Z.

Definition hour_ns : Z := 3600 * 1000000000.
Definition day_ns : Z := 24 * hour_ns.

(** [ts.hour] *)
Definition ts_hour (t : Timestamp) : Z := (t `div` hour_ns) `mod` 24.

(** [ts.dayofweek]: Monday is 0; 1970-01-01 was a Thursday. *)
Definition dayofweek (t : Timestamp) : Z := (t `div` day_ns + 3) `mod` 7.

(** [ts.normalize()]: midnight of the same day. *)
Definition normalize (t : Timestamp) : Timestamp := t - t `mod` day_ns.

(** [ts.date()], as the number of days since 1970-01-01. *)
Definition ts_date (t : Timestamp) : Z := t `div` day_ns.

(** [pd.date_range(target, target + pd.Timedelta(hours=23), freq="H")] *)
Definition date_range_hourly (target : Timestamp) : list Timestamp :=
  (λ k, target + k * hour_ns) <$> seqZ 0 24.

(** Month and day of the month of a day number (proleptic Gregorian
    calendar), for [strftime('%m-%d')]. *)
Definition month_day (days : Z) : Z * Z :=
  let z := days + 719468 in
  let era := z `div` 146097 in
  let doe := z - era * 146097 in
  let yoe := (doe - doe `div` 1460 + doe `div` 36524 - doe `div` 146096) `div` 365 in
  let doy := doe - (365 * yoe + yoe `div` 4 - yoe `div` 100) in
  let mp := (5 * doy + 2) `div` 153 in
  let d := doy - (153 * mp + 2) `div` 5 + 1 in
  let m := if decide (mp < 10) then mp + 3 else mp - 9 in
  (m, d).

Definition digit (n : Z) : ascii := ascii_of_N (48 + Z.to_N n).
Definition two_digits (n : Z) : string :=
  String (digit (n `div` 10)) (String (digit (n `mod` 10)) "").

(** [target.strftime('%m-%d')] *)
Definition strftime_md (t : Timestamp) : string :=
  let '(m, d) := month_day (ts_date t) in
  two_digits m +:+ "-" +:+ two_digits d.

(** ** Strings *)

Definition is_upper (c : ascii) : bool :=
  (65 <=? N_of_ascii c)%N && (N_of_ascii c <=? 90)%N.
Definition is_lower (c : ascii) : bool :=
  (97 <=? N_of_ascii c)%N && (N_of_ascii c <=? 122)%N.
(** [str.isspace] on ASCII: tab to carriage return, the four separators
    28 to 31, and the space. *)
Definition is_space (c : ascii) : bool :=
  let n := N_of_ascii c in
  ((9 <=? n)%N && (n <=? 13)%N) || ((28 <=? n)%N && (n <=? 32)%N).

Definition lower_ascii (c : ascii) : ascii :=
  if is_upper c then ascii_of_N (N_of_ascii c + 32) else c.
Definition upper_ascii (c : ascii) : ascii :=
  if is_lower c then ascii_of_N (N_of_ascii c - 32) else c.

Fixpoint map_string (f : ascii → ascii) (s : string) : string :=
  match s with
  | EmptyString => EmptyString
  | String c s => String (f c) (map_string f s)
  end.

(** [s.lower()] and [s.upper()] *)
Definition lower : string → string := map_string lower_ascii.
Definition upper : string → string := map_string upper_ascii.

(** [s.lstrip()], [s.rstrip()] and [s.strip()] *)
Fixpoint lstrip (s : string) : string :=
  match s with
  | EmptyString => EmptyString
  | String c s' => if is_space c then lstrip s' else s
  end.
Fixpoint rstrip (s : string) : string :=
  match s with
  | EmptyString => EmptyString
  | String c s' =>
      match rstrip s' with
      | EmptyString => if is_space c then EmptyString else String c EmptyString
      | r => String c r
      end
  end.
Definition strip (s : string) : string := rstrip (lstrip s).

(** [s.strip().upper()], as training applies it to a zone name. *)
Definition normalize_zone (s : string) : string := upper (strip s).

(** ** Data frames *)

(** A row of the training frame: columns [timestamp], [zone], [load_mw]. *)
Record TrainingRecord : Type := {
  timestamp : Timestamp;
  zone : string;
  load_mw : Qc;
}.

(** A row of the model table: columns [zone], [day_of_week], [hour],
    [load_mean]. *)
Record MeanRow : Type := {
  m_zone : string;
  day_of_week : Z;
  hour : Z;
  load_mean : Qc;
}.

(** A row of the prediction frame: columns [date], [zone], [timestamp],
    [pred_load_mw]; the date is a day number. *)
Record Prediction : Type := {
  date : Z;
  p_zone : string;
  p_timestamp : Timestamp;
  pred_load_mw : Z;
}.

(** Lexicographic order on pairs, for sorting by several columns. *)
Definition lex_le {A B} (RA : relation A) (RB : relation B) : relation (A * B) :=
  λ p q, RA p.1 q.1 ∧ (p.1 = q.1 → RB p.2 q.2).

Global Instance lex_le_dec {A B} `{EqDecision A} (RA : relation A) (RB : relation B)
  `{!RelDecision RA, !RelDecision RB} : RelDecision (lex_le RA RB).
Proof. intros p q. unfold lex_le. apply _. Defined.

Section drop_duplicates.
Context {A K : Type} `{EqDecision K} (key : A → K).

(** [df.drop_duplicates(subset=key)]: of the rows with one key the first
    stays, and the rows keep their order. *)
Fixpoint drop_duplicates_from (seen : list K) (df : list A) : list A :=
  match df with
  | [] => []
  | r :: df =>
      if decide (key r ∈ seen) then drop_duplicates_from seen df
      else r :: drop_duplicates_from (key r :: seen) df
  end.
Definition drop_duplicates : list A → list A := drop_duplicates_from [].
End drop_duplicates.

(** [series.unique()]: the values in order of first appearance. *)
Definition unique `{EqDecision A} : list A → list A := drop_duplicates id.

Section frames.
Context {A K : Type} `{EqDecision K}.
Context (le : relation K) `{!RelDecision le}.
Context (key : A → K).

Definition key_le : relation A := λ r1 r2, le (key r1) (key r2).
Global Instance key_le_dec : RelDecision key_le.
Proof. intros r1 r2. unfold key_le. apply _. Defined.

(** [df.sort_values(key)] *)
Definition sort_values : list A → list A := merge_sort key_le.

(** [df.groupby(key, as_index=False)[val].mean()]: one row per key that
    occurs, the keys in increasing order. *)
Definition groupby_mean (val : A → Qc) (df : list A) : list (K * Qc) :=
  (λ k, (k, mean (val <$> filter (λ r, key r = k) df)))
    <$> merge_sort le (unique (key <$> df)).
End frames.

(** [sorted(xs)] on strings. *)
Definition sorted : list string → list string := merge_sort String.le.

(** ** The file store and the library functions *)

(** What [pd.read_csv] returns: the header and the rows of cells. *)
Record DataFrame (Cell : Type) : Type := {
  columns : list string;
  data : list (list Cell);
}.
Arguments columns {Cell} _.
Arguments data {Cell} _.

Inductive File (Cell : Type) : Type :=
  | CsvFile (df : DataFrame Cell)
  | ParquetFile (rows : list MeanRow)
  | PredictionFile (rows : list Prediction).
Arguments CsvFile {Cell} df.
Arguments ParquetFile {Cell} rows.
Arguments PredictionFile {Cell} rows.

Record Store (Cell : Type) : Type := {
  files : gmap string (File Cell);
  dirs : gset string;
}.
Arguments files {Cell} _.
Arguments dirs {Cell} _.

(** The functions of [glob] and pandas that the program calls on paths and
    on cells of a CSV file. The load column is taken to be numeric. *)
Class Runtime (Cell : Type) : Type := {
  (** [fnmatch pattern path]: the path matches the glob pattern *)
  fnmatch : string → string → bool;
  (** the missing value, with which [read_csv] fills a short row *)
  na : Cell;
  (** [pd.isna] *)
  isna : Cell → bool;
  (** [pd.to_datetime(_, errors="coerce")]; [None] is [NaT] *)
  to_datetime : Cell → option Timestamp;
  (** [.astype(str)] *)
  astype_str : Cell → string;
  (** the float64 value of a cell of a numeric column *)
  to_float : Cell → Qc;
}.

(** A computation that reads and writes files and may raise: what it has
    written before it raises stays written. *)
Definition IO (Cell A : Type) : Type := Store Cell → result A * Store Cell.

Global Instance IO_ret {Cell} : MRet (IO Cell) := λ A a fs, (Ok a, fs).
Global Instance IO_bind {Cell} : MBind (IO Cell) := λ A B f m fs,
  match m fs with
  | (Ok a, fs') => f a fs'
  | (Raise e, fs') => (Raise e, fs')
  end.

(** The column names that [read_std_pjm] accepts, in order of preference. *)
Definition timestamp_aliases : list string :=
  ["timestamp"; "datetime"; "datetime_beginning_ept"; "datetime_beginning_utc";
   "datetime_beginning_gmt"; "datetime_beginning"].
Definition zone_aliases : list string := ["zone"; "zone_name"; "area"; "area_name"].
Definition load_aliases : list string := ["mw"; "load_mw"; "hrl_load"; "load"; "value"].

Section program.
Context {Cell : Type} `{!Runtime Cell}.

Definition lift {A} (r : result A) : IO Cell A := λ fs, (r, fs).

(** [os.makedirs("models", exist_ok=True)] and the same for
    ["predictions"] *)
Definition with_dirs (fs : Store Cell) : Store Cell :=
  {| files := files fs; dirs := {["models"]} ∪ ({["predictions"]} ∪ dirs fs) |}.
Definition ensure_dirs : IO Cell () := λ fs, (Ok (), with_dirs fs).

Definition read_csv (path : string) : IO Cell (DataFrame Cell) := λ fs,
  match files fs !! path with
  | Some (CsvFile df) => (Ok df, fs)
  | Some _ => (Raise ParserError, fs)
  | None => (Raise FileNotFoundError, fs)
  end.

Definition read_parquet (path : string) : IO Cell (list MeanRow) := λ fs,
  match files fs !! path with
  | Some (ParquetFile rows) => (Ok rows, fs)
  | Some _ => (Raise ParserError, fs)
  | None => (Raise FileNotFoundError, fs)
  end.

Definition write_file (path : string) (f : File Cell) : IO Cell () := λ fs,
  (Ok (), {| files := <[path := f]> (files fs); dirs := dirs fs |}).

(** [grp.to_parquet(out_path, index=False)] *)
Definition to_parquet (path : string) (rows : list MeanRow) : IO Cell () :=
  write_file path (ParquetFile rows).

(** [preds.to_csv(out_csv, index=False)] *)
Definition to_csv (path : string) (rows : list Prediction) : IO Cell () :=
  write_file path (PredictionFile rows).

(** [glob.glob(pattern)]: the paths of the store that match, in no
    particular order. *)
Definition matches (pattern : string) (fs : Store Cell) : list string :=
  filter (λ path, fnmatch pattern path = true) (map_to_list (files fs)).*1.
Definition glob (pattern : string) : IO Cell (list string) := λ fs,
  (Ok (matches pattern fs), fs).

(** *** Trainer *)

(** The first candidate that is a column name. *)
Definition find_column (candidates cols : list string) : option string :=
  snd <$> list_find (λ cand, cand ∈ cols) candidates.

Definition require {A} (o : option A) (e : exn) : IO Cell A :=
  match o with
  | Some a => mret a
  | None => lift (Raise e)
  end.

(** The positions of the columns named [c]. *)
Definition positions (c : string) (cols : list string) : list nat :=
  (filter (λ ic, ic.2 = c) (imap pair cols)).*1.

Definition cell_at (row : list Cell) (i : nat) : Cell := default na (row !! i).

(** Lines 46 to 48 on one row of [out]: the timestamp is parsed, a row
    with a missing timestamp, zone or load is dropped, and the zone is
    stripped and put in upper case. *)
Definition std_row (i j k : nat) (row : list Cell) : option TrainingRecord :=
  t ← to_datetime (cell_at row i);
  if isna (cell_at row j) || isna (cell_at row k) then None
  else Some {| timestamp := t;
               zone := normalize_zone (astype_str (cell_at row j));
               load_mw := to_float (cell_at row k) |}.

Definition read_std_pjm (csv_path : string) : IO Cell (list TrainingRecord) :=
  df ← read_csv csv_path;
  let cols := lower <$> columns df in
  ts_col ← require (find_column timestamp_aliases cols) ValueError;
  zone_col ← require (find_column zone_aliases cols) ValueError;
  load_col ← require (find_column load_aliases cols) ValueError;
  (* out = df[[ts, zone, load]]; out.columns = ["timestamp","zone","load_mw"]:
     the assignment raises unless exactly three columns were selected *)
  match (positions ts_col cols ++ positions zone_col cols ++ positions load_col cols)%list with
  | [i; j; k] => mret (omap (std_row i j k) (data df))
  | _ => lift (Raise ValueError)
  end.

(** [df.drop_duplicates(subset=["zone","timestamp"])
       .sort_values(["zone","timestamp"])] *)
Definition dedup_sorted (df : list TrainingRecord) : list TrainingRecord :=
  sort_values (lex_le String.le Z.le) (λ r, (zone r, timestamp r))
    (drop_duplicates (λ r, (zone r, timestamp r)) df).

Definition load_pjm_glob (pattern : string) : IO Cell (list TrainingRecord) :=
  found ← glob pattern;
  let paths := sorted found in
  match paths with
  | [] => lift (Raise FileNotFoundError)
  | _ =>
      frames ← mapM read_std_pjm paths;
      let df := mjoin frames in (* pd.concat(frames, ignore_index=True) *)
      mret (dedup_sorted df)
  end.

(** The key of a training record in the model: zone, day of the week and
    hour, the columns the trainer groups by. *)
Definition group_key (r : TrainingRecord) : string * Z * Z :=
  (zone r, dayofweek (timestamp r), ts_hour (timestamp r)).

(** Lines 62 to 66: the table of group means. *)
Definition hist_avg (pjm_df : list TrainingRecord) : list MeanRow :=
  let grp := groupby_mean (lex_le (lex_le String.le Z.le) Z.le) group_key load_mw pjm_df in
  (λ g, {| m_zone := g.1.1.1; day_of_week := g.1.1.2; hour := g.1.2;
           load_mean := g.2 |}) <$> grp.

Definition train_hist_avg (pjm_df : list TrainingRecord) (out_path : string) : IO Cell () :=
  ensure_dirs;;
  let grp := hist_avg pjm_df in
  to_parquet out_path grp.

(** The [train] command of [main]. *)
Definition main_train (pjm_glob out : string) : IO Cell () :=
  df ← load_pjm_glob pjm_glob;
  train_hist_avg df out.

(** *** Predictor *)

(** [frame[col].values[0]] *)
Definition first_value {A} (rows : list A) (col : A → Qc) : result Qc :=
  match rows with
  | r :: _ => Ok (col r)
  | [] => Raise IndexError
  end.

(** The body of the loop over zones and hours. *)
Definition predict_slot (means : list MeanRow) (z_h : list (string * Z * Qc))
    (h : list (Z * Qc)) (target : Timestamp) (dow : Z)
    (z : string) (ts : Timestamp) : result Prediction :=
  let hr := ts_hour ts in
  let m := filter (λ r, m_zone r = z ∧ day_of_week r = dow ∧ hour r = hr) means in
  pred ←
    (if decide (m ≠ []) then first_value m load_mean
     else
       let m2 := filter (λ r, r.1.1 = z ∧ r.1.2 = hr) z_h in
       if decide (m2 ≠ []) then first_value m2 snd
       else first_value (filter (λ r, r.1 = hr) h) snd);
  Ok {| date := ts_date target; p_zone := z; p_timestamp := ts;
        pred_load_mw := round pred |}.

Definition predict_day (date : Timestamp) (model_path : string)
    (zones : option (list string)) (out_csv : option string) : IO Cell (list Prediction) :=
  ensure_dirs;;
  let target := normalize date in
  let hours := date_range_hourly target in
  means ← read_parquet model_path;
  let z_h := groupby_mean (lex_le String.le Z.le) (λ r, (m_zone r, hour r)) load_mean means in
  let h := groupby_mean Z.le hour load_mean means in
  let zones := default (sorted (unique (m_zone <$> means))) zones in
  let dow := dayofweek target in
  rows ← lift (mapM (λ zts, predict_slot means z_h h target dow zts.1 zts.2)
                 (z ← zones; ts ← hours; [(z, ts)]));
  let out_csv := default ("predictions/" +:+ strftime_md target +:+ ".csv") out_csv in
  to_csv out_csv rows;;
  mret rows.
End program.

(** ** The command line *)

(** [s.split(",")]: the pieces between the commas, empty ones too. *)
Fixpoint split_comma (s : string) : list string :=
  match s with
  | EmptyString => [EmptyString]
  | String c s' =>
      if decide (c = ","%char) then EmptyString :: split_comma s'
      else
        match split_comma s' with
        | piece :: pieces => String c piece :: pieces
        | [] => [String c EmptyString]
        end
  end.

(** The [zones] of the [predict] command:
    [[z.strip() for z in args.zones.split(",") if z.strip()]] when
    [args.zones] is given and not empty, else [None]. *)
Definition parse_zones (zones : option string) : option (list string) :=
  match zones with
  | None => None
  | Some EmptyString => None
  | Some s => Some (filter (λ z, z ≠ EmptyString) (strip <$> split_comma s))
  end.

Definition BASELINE_PARQUET : string := "models/baseline_hist_avg.parquet".

(** What [argparse] hands to [main]: the command and its options, an option
    that was left out being [None]. The date is taken as parsed. *)
Inductive Command : Type :=
  | Train (pjm_glob : string) (out : option string)
  | Predict (date : Timestamp) (model : option string) (zones : option string)
      (out : option string).

Section command_line.
Context {Cell : Type} `{!Runtime Cell}.

Definition main (args : Command) : IO Cell () :=
  match args with
  | Train pjm_glob out =>
      df ← load_pjm_glob pjm_glob;
      train_hist_avg df (default BASELINE_PARQUET out)
  | Predict date model zones out =>
      let zones := parse_zones zones in
      predict_day date (default BASELINE_PARQUET model) zones out;;
      mret ()
  end.
End command_line.

(** ** Vocabulary of the properties *)

(** The three selections of model rows that the fallback chain looks at. *)
Definition exact_rows (means : list MeanRow) (z : string) (dow hr : Z) : list MeanRow :=
  filter (λ r, m_zone r = z ∧ day_of_week r = dow ∧ hour r = hr) means.
Definition zone_hour_rows (means : list MeanRow) (z : string) (hr : Z) : list MeanRow :=
  filter (λ r, m_zone r = z ∧ hour r = hr) means.
Definition hour_rows (means : list MeanRow) (hr : Z) : list MeanRow :=
  filter (λ r, hour r = hr) means.

(** The fallback chain as the specification words it: the exact entry, else
    the mean over the zone and hour, else the mean over the hour; with no
    entry for the hour at all there is no value. *)
Definition fallback_chain (means : list MeanRow) (dow : Z) (z : string) (hr : Z) : option Qc :=
  match exact_rows means z dow hr with
  | r :: _ => Some (load_mean r)
  | [] =>
      match zone_hour_rows means z hr with
      | _ :: _ => Some (mean (load_mean <$> zone_hour_rows means z hr))
      | [] =>
          match hour_rows means hr with
          | _ :: _ => Some (mean (load_mean <$> hour_rows means hr))
          | [] => None
          end
      end
  end.

(** The model has an entry, of some zone and day, for each hour of the day. *)
Definition covers_hours (means : list MeanRow) : Prop :=
  Forall (λ hr, hr ∈ hour <$> means) (seqZ 0 24).

(** The zones [predict_day] loops over: the ones asked for, or by default
    the zones of the model, sorted. *)
Definition zones_of (means : list MeanRow) (zones : option (list string)) : list string :=
  default (sorted (unique (m_zone <$> means))) zones.

(** The row of the prediction frame for a zone and an hour of the day. *)
Definition slot_row (date : Timestamp) (z : string) (hr : Z) (v : Z) : Prediction :=
  {| date := ts_date (normalize date); p_zone := z;
     p_timestamp := normalize date + hr * hour_ns; pred_load_mw := v |}.

(** What the loop of [predict_day] yields, told with the fallback chain of
    the specification: the row of one slot, and the rows of all slots, one
    zone after the other and the hours of each in order. *)
Definition chain_row (means : list MeanRow) (date : Timestamp)
    (z : string) (ts : Timestamp) : result Prediction :=
  match fallback_chain means (dayofweek (normalize date)) z (ts_hour ts) with
  | Some pred =>
      Ok {| date := ts_date (normalize date); p_zone := z; p_timestamp := ts;
            pred_load_mw := round pred |}
  | None => Raise IndexError
  end.
Definition chain_rows (means : list MeanRow) (date : Timestamp)
    (zones : option (list string)) : result (list Prediction) :=
  mapM (λ zts, chain_row means date zts.1 zts.2)
    (z ← zones_of means zones; ts ← date_range_hourly (normalize date); [(z, ts)]).

(** The loop body as [predict_day] runs it on a model: with the two tables
    of fallback means of that model, the target day and its day of the
    week. *)
Definition slot_prediction (means : list MeanRow) (date : Timestamp)
    (z : string) (ts : Timestamp) : result Prediction :=
  predict_slot means
    (groupby_mean (lex_le String.le Z.le) (λ r, (m_zone r, hour r)) load_mean means)
    (groupby_mean Z.le hour load_mean means)
    (normalize date) (dayofweek (normalize date)) z ts.

(** The zone and the hour of the day of a prediction row. *)
Definition slot_of (r : Prediction) : string * Z := (p_zone r, ts_hour (p_timestamp r)).

(** The rounded value of the fallback chain on a date. *)
Definition chain_value (means : list MeanRow) (date : Timestamp) (z : string) (hr : Z) : option Z :=
  round <$> fallback_chain means (dayofweek date) z hr.

(** The path [predict_day] writes the predictions to. *)
Definition predictions_path (date : Timestamp) (out_csv : option string) : string :=
  default ("predictions/" +:+ strftime_md (normalize date) +:+ ".csv") out_csv.

(** The key of a model row, and the columns a training frame is
    deduplicated by. *)
Definition mean_key (row : MeanRow) : string * Z * Z :=
  (m_zone row, day_of_week row, hour row).
Definition record_key (r : TrainingRecord) : string * Timestamp := (zone r, timestamp r).

(** What [read_std_pjm] returns on a store, which it leaves as it is. *)
Definition read_frame {Cell} `{!Runtime Cell} (fs : Store Cell) (path : string) :
    result (list TrainingRecord) :=
  (read_std_pjm path fs).1.

(** The file at [path] holds the model table [means]. *)
Definition holds_model {Cell} (fs : Store Cell) (path : string) (means : list MeanRow) : Prop :=
  files fs !! path = Some (ParquetFile means).

(** The run of [predict_day] returns, and in the frame it returns the row of
    the slot (zone, hour) is there and every row of that slot carries [v]. *)
Definition emits {Cell} `{!Runtime Cell} (fs : Store Cell) (date : Timestamp)
    (model_path : string) (zones : option (list string)) (out_csv : option string)
    (z : string) (hr : Z) (v : Z) : Prop :=
  ∃ rows fs', predict_day date model_path zones out_csv fs = (Ok rows, fs') ∧
    slot_row date z hr v ∈ rows ∧
    ∀ r, r ∈ rows → slot_of r = (z, hr) → pred_load_mw r = v.

(** The header has none of the candidate names, whatever the case. *)
Definition lacks_column (candidates : list string) {Cell} (df : DataFrame Cell) : Prop :=
  Forall (λ cand, cand ∉ lower <$> columns df) candidates.

(** The first and the last character of a string. *)
Definition first_char (s : string) : option ascii :=
  match s with
  | EmptyString => None
  | String c _ => Some c
  end.
Fixpoint last_char (s : string) : option ascii :=
  match s with
  | EmptyString => None
  | String c s' =>
      match last_char s' with
      | Some c' => Some c'
      | None => Some c
      end
  end.

(** A name as training leaves it: no white space at either end and no
    lower-case letter. *)
Definition is_trimmed (s : string) : Prop :=
  (∀ c, first_char s = Some c → is_space c = false) ∧
  (∀ c, last_char s = Some c → is_space c = false).
Definition has_no_lower (s : string) : Prop :=
  Forall (λ c, is_lower c = false) (list_ascii_of_string s).

(** The zone, hour of the day and value of each prediction row. *)
Definition slot_values (rows : list Prediction) : list (string * Z * Z) :=
  (λ r, (p_zone r, ts_hour (p_timestamp r), pred_load_mw r)) <$> rows.

(** The slots of a run by hour of the day, and the row of a slot by the
    fallback chain. *)
Definition hour_slots (zones : list string) : list (string * Z) :=
  z ← zones; hr ← seqZ 0 24; [(z, hr)].
Definition value_row (means : list MeanRow) (date : Timestamp) (zk : string * Z) :
    result Prediction :=
  match fallback_chain means (dayofweek date) zk.1 zk.2 with
  | Some pred => Ok (slot_row date zk.1 zk.2 (round pred))
  | None => Raise IndexError
  end.

(** The records have a load for each hour of the day. *)
Definition records_cover_hours (records : list TrainingRecord) : Prop :=
  Forall (λ hr, hr ∈ (λ r, ts_hour (timestamp r)) <$> records) (seqZ 0 24).

(** The three columns [read_std_pjm] picks in a header: the first alias of
    each kind that the header has, each naming one column only. *)
Definition picks_columns {Cell} (df : DataFrame Cell) (i j k : nat) : Prop :=
  let cols := lower <$> columns df in
  ∃ ts_col zone_col load_col,
    find_column timestamp_aliases cols = Some ts_col ∧
    find_column zone_aliases cols = Some zone_col ∧
    find_column load_aliases cols = Some load_col ∧
    positions ts_col cols = [i] ∧ positions zone_col cols = [j] ∧
    positions load_col cols = [k].

(** ** A concrete instance of the library functions

    Enough of [glob] and of pandas' cells to run the program on examples: a
    pattern is matched with [*] standing for any run of characters, and a
    cell is what [read_csv] made of a field. *)
Module Example.
Inductive cell : Type :=
  | NaN
  | Text (s : string)
  | Number (x : Qc)
  | Time (t : Timestamp).

Fixpoint star_match (pat s : string) : bool :=
  match pat with
  | EmptyString => if s is EmptyString then true else false
  | String "*" pat' =>
      (fix skip (s : string) : bool :=
         star_match pat' s ||
         match s with
         | EmptyString => false
         | String _ s' => skip s'
         end) s
  | String c pat' =>
      match s with
      | String c' s' => if decide (c = c') then star_match pat' s' else false
      | EmptyString => false
      end
  end.

Global Instance runtime : Runtime cell := {|
  fnmatch := star_match;
  na := NaN;
  isna c := if c is NaN then true else false;
  to_datetime c :=
    match c with
    | Time t => Some t
    | Number x => Some (Qfloor x)
    | _ => None
    end;
  astype_str c :=
    match c with
    | Text s => s
    | NaN => "nan"
    | Number _ => "0.0"
    | Time _ => "1970-01-01"
    end;
  to_float c := if c is Number x then x else 0%Qc;
|}.

Definition empty_fs : Store cell := {| files := ∅; dirs := ∅ |}.

(** 2025-11-10 was a Monday, 2025-11-11 a Tuesday. *)
Definition monday : Timestamp := 20402 * day_ns.
Definition tuesday : Timestamp := 20403 * day_ns.

(** The model of the specification's example: the one entry
    (MZ, Monday, 14) with mean 5000.4. *)
Definition mz_model : list MeanRow :=
  [ {| m_zone := "MZ"; day_of_week := 0; hour := 14; load_mean := Q2Qc (50004 # 10) |} ].
Definition model_path : string := "models/baseline_hist_avg.parquet".

(** A model with an entry for each hour: zone AB on Tuesdays, load
    1000 + 10 * hour, and the entry of zone MZ above. *)
Definition ab_rows : list MeanRow :=
  (λ hr, {| m_zone := "AB"; day_of_week := 1; hour := hr;
            load_mean := Q2Qc (inject_Z (1000 + 10 * hr)) |}) <$> seqZ 0 24.
Definition full_model : list MeanRow := mz_model ++ ab_rows.
Definition full_fs : Store cell :=
  {| files := {[ model_path := ParquetFile full_model ]}; dirs := ∅ |}.

Definition mz_fs : Store cell :=
  {| files := {[ model_path := ParquetFile mz_model ]}; dirs := ∅ |}.

(** The record behind that entry, alone and among the records of a day in
    which zone AB has a load for each hour. *)
Definition mz_record : TrainingRecord :=
  {| timestamp := monday + 14 * hour_ns; zone := "MZ"; load_mw := Q2Qc (50004 # 10) |}.
Definition day_records : list TrainingRecord :=
  mz_record ::
  ((λ hr, {| timestamp := tuesday + hr * hour_ns; zone := "AB";
             load_mw := Q2Qc (inject_Z (1000 + 10 * hr)) |}) <$> seqZ 0 24).

(** Two CSV files: one with the columns of a PJM export, the zone 'mz'
    spelled in three ways and one timestamp twice; one without a zone
    column. *)
Definition pjm_csv : DataFrame cell :=
  {| columns := ["Datetime_Beginning_EPT"; "Zone"; "MW"];
     data :=
       [ [Time (monday + 14 * hour_ns); Text " mz "; Number (Q2Qc 5000)];
         [Time (monday + 14 * hour_ns); Text "MZ"; Number (Q2Qc 7000)];
         [Time (monday + 7 * day_ns + 14 * hour_ns); Text "Mz"; Number (Q2Qc 6000)];
         [Text "n/a"; Text "MZ"; Number (Q2Qc 9000)];
         [Time (monday + 15 * hour_ns); Text "AB"; NaN] ] |}.
Definition no_zone_csv : DataFrame cell :=
  {| columns := ["timestamp"; "mw"];
     data := [ [Time monday; Number (Q2Qc 5000)] ] |}.

Definition pjm_fs : Store cell :=
  {| files := {[ "data/pjm_1.csv" := CsvFile pjm_csv ]}; dirs := ∅ |}.
Definition bad_fs : Store cell :=
  {| files := {[ "data/pjm_1.csv" := CsvFile pjm_csv;
                 "data/pjm_2.csv" := CsvFile no_zone_csv ]}; dirs := ∅ |}.

(** What reading the first file gives, and the store after training on
    it. *)
Definition pjm_frames : list (list TrainingRecord) :=
  [ [ {| timestamp := monday + 14 * hour_ns; zone := "MZ"; load_mw := Q2Qc 5000 |};
      {| timestamp := monday + 14 * hour_ns; zone := "MZ"; load_mw := Q2Qc 7000 |};
      {| timestamp := monday + 7 * day_ns + 14 * hour_ns; zone := "MZ";
         load_mw := Q2Qc 6000 |} ] ].
Definition trained_fs : Store cell := (main_train "data/*.csv" model_path pjm_fs).2.

(** Another store with the full model, under another path and next to
    other files. *)
Definition other_fs : Store cell :=
  {| files := {[ "m.parquet" := ParquetFile full_model;
                 "data/pjm_1.csv" := CsvFile pjm_csv ]};
     dirs := {[ "predictions" ]} |}.

(** The frame loaded from the first CSV file, and the frame predicted from
    the full model for the Monday. *)
Definition pjm_df : list TrainingRecord := dedup_sorted (mjoin pjm_frames).
Definition monday_rows : list Prediction :=
  match (predict_day monday model_path None None full_fs).1 with
  | Ok rows => rows
  | Raise _ => []
  end.
End Example.

(** * Properties *)

(** ** Lists and frames *)

Lemma filter_fmap {A B} (f : A → B) (P : B → Prop) `{!∀ y, Decision (P y)} (l : list A) :
  filter P (f <$> l) = f <$> filter (λ x, P (f x)) l.
Proof.
  induction l as [|x l IH]; [done|].
  rewrite fmap_cons, !filter_cons, IH. by case_decide.
Qed.

Section frames_facts.
Context {A K : Type} `{EqDecision K} (key : A → K).

Lemma drop_duplicates_from_keys seen df :
  key <$> drop_duplicates_from key seen df = drop_duplicates_from id seen (key <$> df).
Proof.
  revert seen. induction df as [|r df IH]; intros seen; simpl; [done|].
  change (id (key r)) with (key r). case_decide; simpl; by rewrite IH.
Qed.

Lemma elem_of_drop_duplicates_from seen df r :
  r ∈ drop_duplicates_from key seen df → r ∈ df ∧ key r ∉ seen.
Proof.
  revert seen. induction df as [|r' df IH]; intros seen; simpl.
  - by intros ?%elem_of_nil.
  - case_decide as Hseen.
    + intros [??]%IH. split; [by right|done].
    + intros [->|[? Hr]%IH]%elem_of_cons; [split; [by left|done]|].
      split; [by right|]. by apply not_elem_of_cons in Hr as [??].
Qed.

Lemma key_of_drop_duplicates_from seen df k :
  k ∈ key <$> drop_duplicates_from key seen df ↔ k ∈ key <$> df ∧ k ∉ seen.
Proof.
  revert seen. induction df as [|r df IH]; intros seen; simpl.
  - split; [by intros ?%elem_of_nil|by intros [?%elem_of_nil _]].
  - case_decide as Hseen; simpl.
    + rewrite IH, elem_of_cons. split; [tauto|].
      intros [[->|?] ?]; tauto.
    + rewrite !elem_of_cons, IH, not_elem_of_cons.
      destruct (decide (k = key r)) as [->|]; tauto.
Qed.

Lemma NoDup_drop_duplicates_from seen df :
  NoDup (key <$> drop_duplicates_from key seen df).
Proof.
  revert seen. induction df as [|r df IH]; intros seen; simpl; [constructor|].
  case_decide; simpl; [done|]. constructor; [|done].
  rewrite key_of_drop_duplicates_from, not_elem_of_cons. tauto.
Qed.

(** The record kept for a key is the first of the frame with that key. *)
Lemma drop_duplicates_from_first seen df r :
  r ∈ drop_duplicates_from key seen df →
  ∃ i, df !! i = Some r ∧ ∀ j r', (j < i)%nat → df !! j = Some r' → key r' ≠ key r.
Proof.
  revert seen. induction df as [|r0 df IH]; intros seen; simpl.
  - by intros ?%elem_of_nil.
  - case_decide as Hseen.
    + intros Hr. destruct (elem_of_drop_duplicates_from _ _ _ Hr) as [_ Hnew].
      destruct (IH _ Hr) as (i & Hi & Hfirst). exists (S i). split; [done|].
      intros [|j] r' Hj Hr'; simplify_eq/=; [congruence|].
      apply (Hfirst j); [lia|done].
    + intros [->|Hr]%elem_of_cons.
      { exists 0%nat. split; [done|]. intros; lia. }
      destruct (elem_of_drop_duplicates_from _ _ _ Hr) as [_ Hnew].
      apply not_elem_of_cons in Hnew as [Hne _].
      destruct (IH _ Hr) as (i & Hi & Hfirst). exists (S i). split; [done|].
      intros [|j] r' Hj Hr'; simplify_eq/=; [congruence|].
      apply (Hfirst j); [lia|done].
Qed.

Lemma key_of_drop_duplicates df k :
  k ∈ key <$> drop_duplicates key df ↔ k ∈ key <$> df.
Proof.
  unfold drop_duplicates. rewrite key_of_drop_duplicates_from.
  split; [by intros [??]|]. intros ?; split; [done|]. by intros ?%elem_of_nil.
Qed.

Lemma filter_eq_NoDup (k : K) (l : list K) :
  NoDup l → filter (λ x, x = k) l = if decide (k ∈ l) then [k] else [].
Proof.
  induction 1 as [|x l Hx Hl IH].
  - case_decide as Hk; [by apply elem_of_nil in Hk|done].
  - rewrite filter_cons, IH. destruct (decide (x = k)) as [->|Hne].
    + destruct (decide (k ∈ l)); [done|].
      destruct (decide (k ∈ k :: l)) as [|[]]; [done|by left].
    + destruct (decide (k ∈ l)) as [Hk|Hk].
      * destruct (decide (k ∈ x :: l)) as [|[]]; [done|by right].
      * destruct (decide (k ∈ x :: l)) as [[?|?]%elem_of_cons|]; done.
Qed.
End frames_facts.

Lemma elem_of_unique `{EqDecision A} (l : list A) x : x ∈ unique l ↔ x ∈ l.
Proof.
  unfold unique. rewrite <-(list_fmap_id (drop_duplicates id l)).
  rewrite key_of_drop_duplicates. by rewrite list_fmap_id.
Qed.

Lemma NoDup_unique `{EqDecision A} (l : list A) : NoDup (unique l).
Proof.
  unfold unique, drop_duplicates.
  rewrite <-(list_fmap_id (drop_duplicates_from id [] l)).
  apply NoDup_drop_duplicates_from.
Qed.

Lemma elem_of_sorted (l : list string) x : x ∈ sorted l ↔ x ∈ l.
Proof. unfold sorted. by rewrite merge_sort_Permutation. Qed.

(** A group of [groupby_mean] is found by its key: one row, the mean over
    the rows of the frame with that key, when the key occurs, none else. *)
Lemma groupby_mean_lookup {A K} `{EqDecision K} (le : relation K) `{!RelDecision le}
    (key : A → K) (val : A → Qc) (df : list A) (k : K) :
  filter (λ g, g.1 = k) (groupby_mean le key val df) =
    if decide (k ∈ key <$> df)
    then [(k, mean (val <$> filter (λ r, key r = k) df))] else [].
Proof.
  unfold groupby_mean. rewrite filter_fmap. simpl.
  rewrite filter_eq_NoDup.
  - assert (k ∈ merge_sort le (unique (key <$> df)) ↔ k ∈ key <$> df) as Hk.
    { by rewrite merge_sort_Permutation, elem_of_unique. }
    destruct (decide (k ∈ key <$> df)).
    + by rewrite decide_True by by apply Hk.
    + by rewrite decide_False by by rewrite Hk.
  - rewrite merge_sort_Permutation. apply NoDup_unique.
Qed.

Lemma filter_key_nil {A K} `{EqDecision K} (key : A → K) (df : list A) (k : K) :
  filter (λ r, key r = k) df = [] ↔ k ∉ key <$> df.
Proof.
  rewrite list_elem_of_fmap. split.
  - intros Hnil (r & -> & Hr). by eapply filter_nil_not_elem_of.
  - intros Hk. destruct (filter _ df) as [|r l] eqn:Hf; [done|].
    assert (r ∈ filter (λ r, key r = k) df) as [? ?]%list_elem_of_filter
      by (rewrite Hf; left).
    destruct Hk. by exists r.
Qed.

(** ** Loops that may raise *)

Lemma mapM_Ok {A B} (f : A → result B) (g : A → B) (l : list A) :
  (∀ x, x ∈ l → f x = Ok (g x)) → mapM f l = Ok (g <$> l).
Proof.
  induction l as [|x l IH]; intros Hf; [done|].
  cbn. rewrite (Hf x) by left. cbn.
  rewrite IH by (intros; apply Hf; by right). done.
Qed.

Lemma mapM_Raise {A B} (f : A → result B) (l : list A) (e : exn) x :
  x ∈ l → f x = Raise e → (∀ y e', f y = Raise e' → e' = e) → mapM f l = Raise e.
Proof.
  intros Hx Hfx Hone. induction l as [|y l IH]; [by apply elem_of_nil in Hx|].
  cbn. destruct (f y) as [b|e'] eqn:Hfy; cbn.
  - apply elem_of_cons in Hx as [->|Hx]; [congruence|].
    fold (mapM f l). by rewrite IH.
  - f_equal. by eapply Hone.
Qed.

Lemma mapM_ext_result {A B} (f g : A → result B) (l : list A) :
  (∀ x, f x = g x) → mapM f l = mapM g l.
Proof.
  intros Hfg. induction l as [|x l IH]; [done|].
  cbn. rewrite Hfg. destruct (g x); cbn; [|done].
  fold (mapM f l) (mapM g l). by rewrite IH.
Qed.

(** ** Timestamps *)

Lemma ts_hour_slot (d : Timestamp) (k : Z) :
  0 ≤ k < 24 → ts_hour (normalize d + k * hour_ns) = k.
Proof.
  intros Hk. unfold ts_hour, normalize, day_ns, hour_ns.
  Z.div_mod_to_equations. lia.
Qed.

Lemma dayofweek_normalize (d : Timestamp) : dayofweek (normalize d) = dayofweek d.
Proof.
  unfold dayofweek, normalize, day_ns, hour_ns. f_equal. f_equal.
  Z.div_mod_to_equations. lia.
Qed.

Lemma elem_of_date_range_hourly (target ts : Timestamp) :
  ts ∈ date_range_hourly target ↔ ∃ k, 0 ≤ k < 24 ∧ ts = target + k * hour_ns.
Proof.
  unfold date_range_hourly. rewrite list_elem_of_fmap.
  setoid_rewrite elem_of_seqZ. split.
  - intros (k & -> & ?). exists k. split; [lia|done].
  - intros (k & ? & ->). exists k. split; [done|lia].
Qed.

(** ** The fallback chain *)

(** The loop body computes the fallback chain of the specification: the two
    tables of fallback means, computed once before the loop, hold for each
    key the mean over the model rows with that key. *)
Lemma predict_slot_chain (means : list MeanRow) (target : Timestamp) (dow : Z)
    (z : string) (ts : Timestamp) :
  predict_slot means
    (groupby_mean (lex_le String.le Z.le) (λ r, (m_zone r, hour r)) load_mean means)
    (groupby_mean Z.le hour load_mean means) target dow z ts =
  match fallback_chain means dow z (ts_hour ts) with
  | Some pred =>
      Ok {| date := ts_date target; p_zone := z; p_timestamp := ts;
            pred_load_mw := round pred |}
  | None => Raise IndexError
  end.
Proof.
  unfold predict_slot, fallback_chain, exact_rows.
  set (hr := ts_hour ts).
  destruct (filter _ means) as [|r m]; [|done].
  rewrite decide_False by (intros Hne; by apply Hne).
  assert (∀ l : list (string * Z * Qc),
    filter (λ g, g.1.1 = z ∧ g.1.2 = hr) l = filter (λ g, g.1 = (z, hr)) l) as ->.
  { intros l. apply list_filter_iff. intros [[??]?]; simpl.
    split; [by intros [-> ->]|by intros [= -> ->]]. }
  assert (zone_hour_rows means z hr =
    filter (λ r, (m_zone r, hour r) = (z, hr)) means) as Hzh.
  { apply list_filter_iff. intros ?; simpl.
    split; [by intros [-> ->]|by intros [= -> ->]]. }
  rewrite !groupby_mean_lookup. rewrite Hzh.
  destruct (decide ((z, hr) ∈ (λ r, (m_zone r, hour r)) <$> means)) as [Hin|Hin].
  - destruct (filter _ means) eqn:Hf.
    { by apply filter_key_nil in Hf. }
    by rewrite decide_True by done.
  - apply filter_key_nil in Hin as ->. clear Hzh.
    rewrite decide_False by (intros Hne; by apply Hne). unfold hour_rows.
    destruct (decide (hr ∈ hour <$> means)) as [Hh|Hh].
    + destruct (filter _ means) eqn:Hf; [by apply (filter_key_nil hour) in Hf|done].
    + by apply (filter_key_nil hour) in Hh as ->.
Qed.

Lemma slot_prediction_chain (means : list MeanRow) (date : Timestamp)
    (z : string) (ts : Timestamp) :
  slot_prediction means date z ts = chain_row means date z ts.
Proof. apply predict_slot_chain. Qed.

Lemma exact_rows_zone_hour (means : list MeanRow) z dow hr :
  zone_hour_rows means z hr = [] → exact_rows means z dow hr = [].
Proof.
  unfold zone_hour_rows. intros Hnil.
  destruct (exact_rows means z dow hr) as [|r l] eqn:Hf; [done|].
  assert (r ∈ exact_rows means z dow hr) as Hr by (rewrite Hf; left).
  apply list_elem_of_filter in Hr as [(? & _ & ?) Hr].
  by destruct (filter_nil_not_elem_of _ _ r Hnil).
Qed.

Lemma zone_hour_rows_hour (means : list MeanRow) z hr :
  hour_rows means hr = [] → zone_hour_rows means z hr = [].
Proof.
  unfold hour_rows. intros Hnil.
  destruct (zone_hour_rows means z hr) as [|r l] eqn:Hf; [done|].
  assert (r ∈ zone_hour_rows means z hr) as Hr by (rewrite Hf; left).
  apply list_elem_of_filter in Hr as [(_ & ?) Hr].
  by destruct (filter_nil_not_elem_of _ _ r Hnil).
Qed.

(** The tiers at one slot, whatever the rest of the model is: the exact
    entry when there is one; else the mean over the zone and hour when the
    zone has an entry at the hour; else the mean over the hour when the hour
    has an entry; else [IndexError]. *)
Lemma slot_exact_tier (means : list MeanRow) date z ts e rest :
  exact_rows means z (dayofweek date) (ts_hour ts) = e :: rest →
  slot_prediction means date z ts =
    Ok {| date := ts_date (normalize date); p_zone := z; p_timestamp := ts;
          pred_load_mw := round (load_mean e) |}.
Proof.
  intros He. rewrite slot_prediction_chain. unfold chain_row, fallback_chain.
  by rewrite dayofweek_normalize, He.
Qed.

Lemma slot_zone_hour_tier (means : list MeanRow) date z ts :
  exact_rows means z (dayofweek date) (ts_hour ts) = [] →
  zone_hour_rows means z (ts_hour ts) ≠ [] →
  slot_prediction means date z ts =
    Ok {| date := ts_date (normalize date); p_zone := z; p_timestamp := ts;
          pred_load_mw := round (mean (load_mean <$> zone_hour_rows means z (ts_hour ts))) |}.
Proof.
  intros He Hzh. rewrite slot_prediction_chain. unfold chain_row, fallback_chain.
  rewrite dayofweek_normalize, He. by destruct (zone_hour_rows means z (ts_hour ts)).
Qed.

Lemma slot_global_hour_tier (means : list MeanRow) date z ts :
  zone_hour_rows means z (ts_hour ts) = [] →
  hour_rows means (ts_hour ts) ≠ [] →
  slot_prediction means date z ts =
    Ok {| date := ts_date (normalize date); p_zone := z; p_timestamp := ts;
          pred_load_mw := round (mean (load_mean <$> hour_rows means (ts_hour ts))) |}.
Proof.
  intros Hzh Hh. rewrite slot_prediction_chain. unfold chain_row, fallback_chain.
  rewrite (exact_rows_zone_hour _ _ _ _ Hzh), Hzh.
  by destruct (hour_rows means (ts_hour ts)).
Qed.

Lemma slot_without_hour (means : list MeanRow) date z ts :
  hour_rows means (ts_hour ts) = [] →
  slot_prediction means date z ts = Raise IndexError.
Proof.
  intros Hh. rewrite slot_prediction_chain. unfold chain_row, fallback_chain.
  pose proof (zone_hour_rows_hour _ z _ Hh) as Hzh.
  by rewrite (exact_rows_zone_hour _ _ _ _ Hzh), Hzh, Hh.
Qed.

(** ** Runs of [predict_day] *)

Section predictor_facts.
Context {Cell : Type} `{!Runtime Cell}.
Implicit Types (fs : Store Cell) (means : list MeanRow).

(** A run of [predict_day] on a store that holds the model: the rows are
    those of the fallback chain and are written to the output file; when a
    slot raises, nothing is written but the directories. *)
Lemma predict_day_run fs date model_path means zones out_csv :
  holds_model fs model_path means →
  predict_day date model_path zones out_csv fs =
    match chain_rows means date zones with
    | Ok rows =>
        (Ok rows,
         {| files := <[predictions_path date out_csv := PredictionFile rows]> (files fs);
            dirs := dirs (with_dirs fs) |})
    | Raise e => (Raise e, with_dirs fs)
    end.
Proof.
  intros Hmodel. unfold holds_model in Hmodel.
  unfold predict_day, chain_rows, mbind, IO_bind, ensure_dirs, read_parquet, lift.
  simpl. rewrite Hmodel.
  erewrite (mapM_ext_result _ (λ zts, chain_row means date zts.1 zts.2)).
  2:{ intros [z ts]. apply predict_slot_chain. }
  by destruct (mapM _ _).
Qed.

Lemma covers_hours_chain means dow z hr :
  covers_hours means → 0 ≤ hr < 24 → is_Some (fallback_chain means dow z hr).
Proof.
  intros Hcov Hhr. unfold covers_hours in Hcov. rewrite list.Forall_forall in Hcov.
  assert (hour_rows means hr ≠ []) as Hh.
  { unfold hour_rows. rewrite (filter_key_nil hour). intros Hn. apply Hn, Hcov.
    apply elem_of_seqZ. lia. }
  unfold fallback_chain.
  destruct (exact_rows _ _ _ _); [|by eexists].
  destruct (zone_hour_rows _ _ _); [|by eexists].
  destruct (hour_rows _ _); [done|by eexists].
Qed.

Lemma elem_of_slots (zones : list string) (target : Timestamp) z ts :
  (z, ts) ∈ (z ← zones; ts ← date_range_hourly target; [(z, ts)]) ↔
  z ∈ zones ∧ ∃ k, 0 ≤ k < 24 ∧ ts = target + k * hour_ns.
Proof.
  rewrite list_elem_of_bind. setoid_rewrite list_elem_of_bind.
  setoid_rewrite list_elem_of_singleton. setoid_rewrite elem_of_date_range_hourly.
  split.
  - intros (z' & (ts' & [= -> ->] & Hts) & Hz). eauto.
  - intros (Hz & Hts). eauto.
Qed.

(** When the model covers the hours, no slot raises: the rows are those
    of the fallback chain, which has a value at each slot. *)
Lemma chain_rows_Ok means date zones :
  covers_hours means →
  ∃ rows, chain_rows means date zones = Ok rows ∧
    ∀ r, r ∈ rows ↔
      ∃ z k v, z ∈ zones_of means zones ∧ 0 ≤ k < 24 ∧
        chain_value means (normalize date) z k = Some v ∧ r = slot_row date z k v.
Proof.
  intros Hcov. unfold chain_rows.
  set (g := λ zts : string * Timestamp,
    {| date := ts_date (normalize date); p_zone := zts.1; p_timestamp := zts.2;
       pred_load_mw := round (default 0%Qc
         (fallback_chain means (dayofweek (normalize date)) zts.1 (ts_hour zts.2))) |}).
  set (slots := _ ≫= _).
  assert (∀ z ts, (z, ts) ∈ slots → ∃ k, 0 ≤ k < 24 ∧ ts = normalize date + k * hour_ns ∧
    ts_hour ts = k ∧ z ∈ zones_of means zones) as Hslot.
  { intros z ts (Hz & k & Hk & ->)%elem_of_slots. exists k.
    by rewrite ts_hour_slot. }
  exists (g <$> slots). split.
  - apply mapM_Ok. intros [z ts] (k & Hk & -> & Hhr & _)%Hslot.
    unfold chain_row, g; simpl. rewrite Hhr.
    by destruct (covers_hours_chain means (dayofweek (normalize date)) z k Hcov Hk)
      as [v ->].
  - intros r. rewrite list_elem_of_fmap. split.
    + intros ([z ts] & -> & Hin). destruct (Hslot _ _ Hin) as (k & Hk & -> & Hhr & Hz).
      destruct (covers_hours_chain means (dayofweek (normalize date)) z k Hcov Hk)
        as [v Hv].
      exists z, k, (round v). unfold chain_value, g, slot_row; simpl.
      rewrite Hhr, Hv. done.
    + intros (z & k & v & Hz & Hk & Hv & ->).
      exists (z, normalize date + k * hour_ns). split.
      * unfold chain_value in Hv. unfold g, slot_row; simpl.
        rewrite ts_hour_slot by done.
        destruct (fallback_chain _ _ _ _); simplify_eq/=; done.
      * apply elem_of_slots. eauto.
Qed.

(** When the model has no entry for some hour of the day and there is a
    zone to predict, the run raises [IndexError] and writes no predictions:
    an entry for each hour is what a run needs. *)
Lemma predict_day_uncovered_hour fs date model_path means zones out_csv :
  holds_model fs model_path means → ¬ covers_hours means →
  zones_of means zones ≠ [] →
  predict_day date model_path zones out_csv fs = (Raise IndexError, with_dirs fs).
Proof.
  intros Hmodel Hcov Hzones. rewrite (predict_day_run _ _ _ _ _ _ Hmodel).
  apply not_Forall_Exists in Hcov; [|apply _].
  apply list.Exists_exists in Hcov as (hr & [? ?]%elem_of_seqZ & Hhr).
  destruct (zones_of means zones) as [|z zs] eqn:Hzs; [done|].
  assert (chain_rows means date zones = Raise IndexError) as ->; [|done].
  unfold chain_rows.
  apply (mapM_Raise _ _ _ (z, normalize date + hr * hour_ns)).
  - rewrite Hzs. apply elem_of_slots. split; [left|]. exists hr. split; [lia|done].
  - unfold chain_row, fallback_chain; simpl. rewrite ts_hour_slot by lia.
    apply (filter_key_nil hour) in Hhr. fold (hour_rows means hr) in Hhr.
    pose proof (zone_hour_rows_hour _ z _ Hhr) as Hzh.
    by rewrite (exact_rows_zone_hour _ _ _ _ Hzh), Hzh, Hhr.
  - intros [z' ts] e'. unfold chain_row.
    destruct (fallback_chain _ _ _ _); [done|]. by intros [= <-].
Qed.

(** The rows of a run on a model that covers the hours. *)
Lemma predict_day_rows fs date model_path means zones out_csv :
  holds_model fs model_path means → covers_hours means →
  ∃ rows fs', predict_day date model_path zones out_csv fs = (Ok rows, fs') ∧
    ∀ r, r ∈ rows ↔
      ∃ z k v, z ∈ zones_of means zones ∧ 0 ≤ k < 24 ∧
        chain_value means (normalize date) z k = Some v ∧ r = slot_row date z k v.
Proof.
  intros Hmodel Hcov.
  destruct (chain_rows_Ok means date zones Hcov) as (rows & Hrows & Hin).
  rewrite (predict_day_run _ _ _ _ _ _ Hmodel), Hrows. eauto.
Qed.

(** The row of one slot in such a run: it is there, and every row of the
    slot carries the value of the fallback chain. *)
Lemma predict_day_slot fs date model_path means zones out_csv z hr v :
  holds_model fs model_path means → covers_hours means →
  z ∈ zones_of means zones → 0 ≤ hr < 24 →
  fallback_chain means (dayofweek date) z hr = Some v →
  emits fs date model_path zones out_csv z hr (round v).
Proof.
  intros Hmodel Hcov Hz Hhr Hv. unfold emits.
  destruct (predict_day_rows fs date model_path means zones out_csv Hmodel Hcov)
    as (rows & fs' & Hrun & Hin).
  assert (chain_value means (normalize date) z hr = Some (round v)) as Hcv.
  { unfold chain_value. by rewrite dayofweek_normalize, Hv. }
  exists rows, fs'. split_and!; [done| |].
  - apply Hin. by exists z, hr, (round v).
  - intros r (z' & k & v' & _ & Hk & Hv' & ->)%Hin. unfold slot_of, slot_row; simpl.
    rewrite ts_hour_slot by done. intros [= -> ->]. congruence.
Qed.
Lemma mapM_Ok_inv {A B} (f : A → result B) (l : list A) (ys : list B) :
  mapM f l = Ok ys → Forall2 (λ x y, f x = Ok y) l ys.
Proof.
  revert ys. induction l as [|x l IH]; intros ys; cbn.
  - intros [= <-]. constructor.
  - destruct (f x) as [y|] eqn:Hfx; cbn; [|done].
    fold (mapM f l). destruct (mapM f l) as [ys'|]; cbn; [|done].
    intros [= <-]. constructor; [done|]. by apply IH.
Qed.

Lemma bind_singletons {A B} (f : A → B) (l : list A) : l ≫= (λ x, [f x]) = f <$> l.
Proof. induction l as [|x l IH]; [done|]. by rewrite bind_cons, IH. Qed.

Lemma hours_of_slots (z : string) (d : Timestamp) :
  (λ zts : string * Timestamp, (zts.1, ts_hour zts.2)) <$>
    (ts ← date_range_hourly (normalize d); [(z, ts)]) = (hr ← seqZ 0 24; [(z, hr)]).
Proof.
  rewrite !bind_singletons. unfold date_range_hourly.
  rewrite <-!list_fmap_compose. apply list_fmap_ext. intros i k Hk; simpl.
  apply lookup_seqZ in Hk as [-> ?]. rewrite ts_hour_slot; [done|lia].
Qed.

(** The rows of a run come one per slot: zone after zone in the order of
    the zone list, and for each zone the hours 0 to 23. *)
Lemma chain_rows_slots means date zones rows :
  chain_rows means date zones = Ok rows →
  slot_of <$> rows = (z ← zones_of means zones; hr ← seqZ 0 24; [(z, hr)]).
Proof.
  unfold chain_rows. intros Hrows%mapM_Ok_inv.
  trans ((λ zts : string * Timestamp, (zts.1, ts_hour zts.2)) <$>
    (z ← zones_of means zones; ts ← date_range_hourly (normalize date); [(z, ts)])).
  - induction Hrows as [|[z ts] r slots rows' Hr _ IH]; [done|].
    rewrite !fmap_cons, IH. f_equal. unfold chain_row in Hr; simpl in Hr.
    by destruct (fallback_chain _ _ _ _); simplify_eq.
  - clear Hrows. induction (zones_of means zones) as [|z zs IH]; [done|].
    by rewrite !bind_cons, fmap_app, IH, hours_of_slots.
Qed.

Lemma NoDup_slots (zs : list string) :
  NoDup zs → NoDup (z ← zs; hr ← seqZ 0 24; [(z, hr)]).
Proof.
  intros Hzs. apply NoDup_bind; [| |done].
  - intros z1 z2 [z hr] _ _. rewrite !bind_singletons, !list_elem_of_fmap.
    by intros (? & [= -> _] & _) (? & [= -> _] & _).
  - intros z _. rewrite bind_singletons. apply NoDup_fmap_2; [|apply NoDup_seqZ].
    by intros ?? [=].
Qed.

Lemma zones_of_default means :
  NoDup (zones_of means None) ∧ ∀ z, z ∈ zones_of means None ↔ z ∈ m_zone <$> means.
Proof.
  unfold zones_of, sorted; simpl. split.
  - rewrite merge_sort_Permutation. apply NoDup_unique.
  - intros z. by rewrite merge_sort_Permutation, elem_of_unique.
Qed.

Lemma zones_of_default_Sorted means : Sorted String.le (zones_of means None).
Proof. unfold zones_of, sorted; simpl. apply (Sorted_merge_sort String.le). Qed.





End predictor_facts.

(** ** The trainer *)

Lemma mean_singleton (v : Qc) : mean [v] = v.
Proof.
  unfold mean; simpl. rewrite Qcplus_0_r.
  change (Q2Qc (inject_Z 1)) with 1%Qc. apply (right_id 1%Qc Qcdiv).
Qed.

Lemma NoDup_all_equal {A} (l : list A) (a : A) :
  NoDup l → a ∈ l → (∀ x, x ∈ l → x = a) → l = [a].
Proof.
  intros Hnd Ha Hall. destruct Hnd as [|x l Hx Hl]; [by apply elem_of_nil in Ha|].
  rewrite (Hall x) by left. f_equal. destruct l as [|y l]; [done|].
  destruct Hx. rewrite (Hall x), <-(Hall y); [left|right; left|left].
Qed.

Section hist_avg_facts.
Implicit Types (df records : list TrainingRecord).

Lemma hist_avg_keys df :
  mean_key <$> hist_avg df =
    merge_sort (lex_le (lex_le String.le Z.le) Z.le) (unique (group_key <$> df)).
Proof.
  unfold hist_avg, groupby_mean. rewrite <-!list_fmap_compose.
  rewrite <-(list_fmap_id (merge_sort _ _)) at 2.
  apply list_fmap_ext. by intros _ [[??]?] _.
Qed.

Lemma hist_avg_key_elem_of df k : k ∈ mean_key <$> hist_avg df ↔ k ∈ group_key <$> df.
Proof. by rewrite hist_avg_keys, merge_sort_Permutation, elem_of_unique. Qed.

Lemma hist_avg_NoDup df : NoDup (mean_key <$> hist_avg df).
Proof. rewrite hist_avg_keys, merge_sort_Permutation. apply NoDup_unique. Qed.

Lemma hist_avg_row df row :
  row ∈ hist_avg df →
  load_mean row = mean (load_mw <$> filter (λ r, group_key r = mean_key row) df).
Proof.
  unfold hist_avg, groupby_mean. rewrite <-list_fmap_compose.
  intros ([[z d] h] & -> & _)%list_elem_of_fmap. done.
Qed.

Lemma exact_rows_hist_avg df z dow hr :
  (z, dow, hr) ∈ group_key <$> df →
  exact_rows (hist_avg df) z dow hr =
    [ {| m_zone := z; day_of_week := dow; hour := hr;
         load_mean := mean (load_mw <$> filter (λ r, group_key r = (z, dow, hr)) df) |} ].
Proof.
  intros Hk. unfold exact_rows, hist_avg. rewrite filter_fmap.
  erewrite (list_filter_iff _ (λ g, g.1 = (z, dow, hr))).
  - rewrite groupby_mean_lookup. by rewrite decide_True by done.
  - intros [[[??]?]?]; simpl. split; [by intros (-> & -> & ->)|by intros [= -> -> ->]].
Qed.

Lemma covers_hours_hist_avg df :
  covers_hours (hist_avg df) ↔ Forall (λ hr, hr ∈ (λ r, ts_hour (timestamp r)) <$> df) (seqZ 0 24).
Proof.
  unfold covers_hours. apply Forall_iff. intros hr.
  assert (∀ hr, hr ∈ hour <$> hist_avg df ↔ ∃ k, k.2 = hr ∧ k ∈ mean_key <$> hist_avg df)
    as ->.
  { intros ?. rewrite list_elem_of_fmap. split.
    - intros (row & -> & ?). exists (mean_key row).
      split; [done|]. by apply list_elem_of_fmap_2.
    - intros (? & <- & (row & -> & ?)%list_elem_of_fmap). by exists row. }
  setoid_rewrite hist_avg_key_elem_of. rewrite list_elem_of_fmap. split.
  - intros (? & <- & (r & -> & ?)%list_elem_of_fmap). by exists r.
  - intros (r & -> & ?). exists (group_key r). split; [done|]. by apply list_elem_of_fmap_2.
Qed.

(** Deduplication keeps one record of each (zone, timestamp), and sorting
    then only reorders. *)
Lemma dedup_sorted_keys records :
  NoDup (record_key <$> dedup_sorted records) ∧
  (∀ r, r ∈ dedup_sorted records → r ∈ records) ∧
  (∀ k, k ∈ record_key <$> dedup_sorted records ↔ k ∈ record_key <$> records).
Proof.
  unfold dedup_sorted, sort_values. split_and!.
  - rewrite merge_sort_Permutation. apply (NoDup_drop_duplicates_from record_key).
  - intros r. rewrite merge_sort_Permutation.
    by intros [? _]%(elem_of_drop_duplicates_from record_key).
  - intros k. rewrite merge_sort_Permutation. apply (key_of_drop_duplicates record_key).
Qed.

(** Of the records with one (zone, timestamp) the first read is kept. *)
Lemma dedup_sorted_first records r :
  r ∈ dedup_sorted records →
  ∃ i, records !! i = Some r ∧
    ∀ j r', (j < i)%nat → records !! j = Some r' → record_key r' ≠ record_key r.
Proof.
  unfold dedup_sorted, sort_values. rewrite merge_sort_Permutation.
  apply (drop_duplicates_from_first record_key).
Qed.

Lemma group_key_record_key (r1 r2 : TrainingRecord) :
  record_key r1 = record_key r2 → group_key r1 = group_key r2.
Proof. unfold record_key, group_key. by intros [= -> ->]. Qed.

(** A record that is alone in its group before deduplication is alone in
    it after, and the group mean is its load. *)
Lemma group_of_lone_record records rec :
  rec ∈ records →
  (∀ r, r ∈ records → group_key r = group_key rec → r = rec) →
  filter (λ r, group_key r = group_key rec) (dedup_sorted records) = [rec].
Proof.
  intros Hrec Hlone.
  destruct (dedup_sorted_keys records) as (Hnd & Hsub & Hkeys).
  apply NoDup_all_equal.
  - apply list.NoDup_filter. by apply NoDup_fmap_1 in Hnd.
  - apply list_elem_of_filter. split; [done|].
    assert (record_key rec ∈ record_key <$> dedup_sorted records) as Hk.
    { apply Hkeys. by apply list_elem_of_fmap_2. }
    apply list_elem_of_fmap in Hk as (r & Hr & Hin).
    rewrite <-(Hlone r); [done|by apply Hsub|].
    symmetry. by apply group_key_record_key.
  - intros r [Hk Hin]%list_elem_of_filter. apply Hlone; [by apply Hsub|done].
Qed.
End hist_avg_facts.

(** ** Zone names *)

Lemma upper_ascii_idemp (c : ascii) : upper_ascii (upper_ascii c) = upper_ascii c.
Proof. by destruct c as [[] [] [] [] [] [] [] []]. Qed.

Lemma is_space_upper_ascii (c : ascii) : is_space (upper_ascii c) = is_space c.
Proof. by destruct c as [[] [] [] [] [] [] [] []]. Qed.

Lemma upper_idemp (s : string) : upper (upper s) = upper s.
Proof.
  unfold upper. induction s as [|c s IH]; simpl; [done|].
  by rewrite upper_ascii_idemp, IH.
Qed.

Lemma lstrip_upper (s : string) : lstrip (upper s) = upper (lstrip s).
Proof.
  unfold upper. induction s as [|c s IH]; simpl; [done|].
  rewrite is_space_upper_ascii. by destruct (is_space c).
Qed.

Lemma rstrip_upper (s : string) : rstrip (upper s) = upper (rstrip s).
Proof.
  unfold upper. induction s as [|c s IH]; simpl; [done|].
  rewrite IH, is_space_upper_ascii.
  destruct (rstrip s); simpl; [|done]. by destruct (is_space c).
Qed.

Lemma rstrip_idemp (s : string) : rstrip (rstrip s) = rstrip s.
Proof.
  induction s as [|c s IH]; simpl; [done|].
  destruct (rstrip s) as [|c' r] eqn:Hr.
  - destruct (is_space c) eqn:Hc; simpl; [done|]. by rewrite Hc.
  - change (rstrip (String c (String c' r))) with
      (match rstrip (String c' r) with
       | EmptyString => if is_space c then EmptyString else String c EmptyString
       | r' => String c r'
       end).
    by rewrite IH.
Qed.

Lemma lstrip_rstrip_lstrip (s : string) : lstrip (rstrip (lstrip s)) = rstrip (lstrip s).
Proof.
  induction s as [|c s IH]; simpl; [done|].
  destruct (is_space c) eqn:Hc; [done|]. simpl.
  destruct (rstrip s); rewrite ?Hc; simpl; by rewrite Hc.
Qed.

Lemma strip_idemp (s : string) : strip (strip s) = strip s.
Proof. unfold strip. by rewrite lstrip_rstrip_lstrip, rstrip_idemp. Qed.

(** A normalized zone name is its own normal form. *)
Lemma normalize_zone_idemp (s : string) :
  normalize_zone (normalize_zone s) = normalize_zone s.
Proof.
  unfold normalize_zone, strip.
  by rewrite lstrip_upper, rstrip_upper, upper_idemp, lstrip_rstrip_lstrip, rstrip_idemp.
Qed.

(** ** Runs of the trainer *)

Lemma mapM_some_Raise {A B} (f : A → result B) (l : list A) x e :
  x ∈ l → f x = Raise e → ∃ e', mapM f l = Raise e'.
Proof.
  intros Hx Hfx. induction l as [|y l IH]; [by apply elem_of_nil in Hx|].
  cbn. destruct (f y) as [b|e'] eqn:Hfy; cbn; [|by eexists].
  apply elem_of_cons in Hx as [->|Hx]; [congruence|].
  fold (mapM f l). destruct (IH Hx) as [e' ->]. by eexists.
Qed.

Lemma Forall2_elem_of_r {A B} (P : A → B → Prop) (l : list A) (k : list B) y :
  Forall2 P l k → y ∈ k → ∃ x, x ∈ l ∧ P x y.
Proof.
  induction 1 as [|x y' l k HP _ IH]; [by intros ?%elem_of_nil|].
  intros [->|Hy]%elem_of_cons.
  - exists x. split; [left|done].
  - destruct (IH Hy) as (x' & ? & ?). exists x'. split; [by right|done].
Qed.

Section trainer_runs.
Context {Cell : Type} `{!Runtime Cell}.
Implicit Types (fs : Store Cell) (df : DataFrame Cell).

Lemma IO_bind_eq {A B} (m : IO Cell A) (f : A → IO Cell B) fs :
  (m ≫= f) fs =
    match m fs with
    | (Ok a, fs') => f a fs'
    | (Raise e, fs') => (Raise e, fs')
    end.
Proof. done. Qed.

Lemma train_hist_avg_run (pjm_df : list TrainingRecord) out fs :
  train_hist_avg pjm_df out fs =
    (Ok (), {| files := <[out := ParquetFile (hist_avg pjm_df)]> (files fs);
               dirs := dirs (with_dirs fs) |}).
Proof. done. Qed.

Lemma read_std_pjm_pure path fs : read_std_pjm path fs = (read_frame fs path, fs).
Proof.
  unfold read_frame, read_std_pjm, mbind, IO_bind, read_csv, require, lift.
  destruct (files fs !! path) as [[df| |]|]; try done.
  destruct (find_column timestamp_aliases (lower <$> columns df)); simpl; [|done].
  destruct (find_column zone_aliases (lower <$> columns df)); simpl; [|done].
  destruct (find_column load_aliases (lower <$> columns df)); simpl; [|done].
  by repeat case_match.
Qed.

Lemma mapM_read_std_pjm paths fs :
  mapM read_std_pjm paths fs = (mapM (read_frame fs) paths, fs).
Proof.
  induction paths as [|path paths IH]; [done|].
  cbn. rewrite IO_bind_eq, read_std_pjm_pure.
  destruct (read_frame fs path); cbn; [|done].
  fold (mapM read_std_pjm paths) (mapM (read_frame fs) paths).
  rewrite IO_bind_eq, IH. by destruct (mapM (read_frame fs) paths).
Qed.

(** A run of [load_pjm_glob]: it writes nothing; it raises when no path
    matches or when reading one of the files raises, and else returns the
    frames, concatenated, deduplicated and sorted. *)
Lemma load_pjm_glob_run pattern fs :
  load_pjm_glob pattern fs =
    (match sorted (matches pattern fs) with
     | [] => Raise FileNotFoundError
     | paths =>
         match mapM (read_frame fs) paths with
         | Ok frames => Ok (dedup_sorted (mjoin frames))
         | Raise e => Raise e
         end
     end, fs).
Proof.
  unfold load_pjm_glob, glob. rewrite IO_bind_eq.
  destruct (sorted _) as [|path paths]; [done|].
  rewrite IO_bind_eq, mapM_read_std_pjm.
  by destruct (mapM _ _).
Qed.

Lemma find_column_None candidates df :
  lacks_column candidates df → find_column candidates (lower <$> columns df) = None.
Proof.
  unfold lacks_column, find_column. intros Hlacks.
  by rewrite (proj2 (list_find_None _ _) Hlacks).
Qed.

Lemma read_frame_lacks_column fs path df :
  files fs !! path = Some (CsvFile df) →
  lacks_column timestamp_aliases df ∨ lacks_column zone_aliases df ∨
    lacks_column load_aliases df →
  read_frame fs path = Raise ValueError.
Proof.
  intros Hfile Hlacks.
  unfold read_frame, read_std_pjm, mbind, IO_bind, read_csv, require, lift.
  rewrite Hfile.
  destruct (find_column timestamp_aliases (lower <$> columns df)) eqn:Hts; simpl; [|done].
  destruct (find_column zone_aliases (lower <$> columns df)) eqn:Hzone; simpl; [|done].
  destruct (find_column load_aliases (lower <$> columns df)) eqn:Hload; simpl; [|done].
  destruct Hlacks as [H|[H|H]]; apply find_column_None in H; congruence.
Qed.

Lemma read_frame_zone fs path frame r :
  read_frame fs path = Ok frame → r ∈ frame → normalize_zone (zone r) = zone r.
Proof.
  unfold read_frame, read_std_pjm, mbind, IO_bind, read_csv, require, lift.
  destruct (files fs !! path) as [[df| |]|]; try done.
  destruct (find_column timestamp_aliases (lower <$> columns df)); simpl; [|done].
  destruct (find_column zone_aliases (lower <$> columns df)); simpl; [|done].
  destruct (find_column load_aliases (lower <$> columns df)); simpl; [|done].
  repeat case_match; try done.
  intros [= <-] (row & _ & Hrow)%list_elem_of_omap.
  unfold std_row in Hrow. destruct (to_datetime _); simpl in Hrow; [|done].
  destruct (_ || _); simplify_eq/=. apply normalize_zone_idemp.
Qed.

(** The zones of a trained model are in normal form. *)
Lemma main_train_zones pattern out fs fs' :
  main_train pattern out fs = (Ok (), fs') →
  ∃ model, holds_model fs' out model ∧ ∀ z, z ∈ m_zone <$> model → normalize_zone z = z.
Proof.
  unfold main_train. rewrite IO_bind_eq, load_pjm_glob_run.
  destruct (sorted _) as [|path paths] eqn:Hpaths; [done|].
  destruct (mapM _ _) as [frames|] eqn:Hframes; [|done].
  rewrite train_hist_avg_run. intros [= <-].
  exists (hist_avg (dedup_sorted (mjoin frames))). split.
  { unfold holds_model; simpl. apply lookup_insert_eq. }
  intros z (row & -> & Hrow)%list_elem_of_fmap.
  assert (mean_key row ∈ mean_key <$> hist_avg (dedup_sorted (mjoin frames))) as Hk
    by by apply list_elem_of_fmap_2.
  apply hist_avg_key_elem_of, list_elem_of_fmap in Hk as (r & Hkey & Hr).
  destruct (dedup_sorted_keys (mjoin frames)) as (_ & Hsub & _).
  apply Hsub, list_elem_of_join in Hr as (frame & Hr & Hframe).
  apply mapM_Ok_inv in Hframes.
  destruct (Forall2_elem_of_r _ _ _ _ Hframes Hframe) as (p & _ & Hread).
  replace (m_zone row) with (zone r) by by injection Hkey.
  by eapply read_frame_zone.
Qed.
End trainer_runs.

(** ** Training, then predicting *)

Section claims.
Context {Cell : Type} `{!Runtime Cell}.
Implicit Types (fs : Store Cell) (means : list MeanRow).

Lemma exact_rows_of_zone_hour means z dow hr :
  exact_rows means z dow hr =
    filter (λ r, day_of_week r = dow) (zone_hour_rows means z hr).
Proof.
  unfold exact_rows, zone_hour_rows. rewrite list_filter_filter.
  apply list_filter_iff. intros r. tauto.
Qed.




(** C9: when the pattern matches no file, or a matched CSV file has no
    timestamp column, no zone column or no load column under the accepted
    names, training raises and the store is as it was: no model file is
    written, and no directory made. *)
Theorem main_train_fatal fs pattern out :
  matches pattern fs = [] ∨
  (∃ path df, path ∈ matches pattern fs ∧ files fs !! path = Some (CsvFile df) ∧
     (lacks_column timestamp_aliases df ∨ lacks_column zone_aliases df ∨
      lacks_column load_aliases df)) →
  ∃ e, main_train pattern out fs = (Raise e, fs).
Proof.
  intros Hbad. unfold main_train. rewrite IO_bind_eq, load_pjm_glob_run.
  destruct Hbad as [->|(path & df & Hpath & Hfile & Hlacks)]; [by eexists|].
  apply elem_of_sorted in Hpath.
  destruct (sorted _) as [|p paths]; [by eexists|].
  destruct (mapM_some_Raise (read_frame fs) (p :: paths) path ValueError Hpath)
    as [e ->]; [by eapply read_frame_lacks_column|by eexists].
Qed.

End claims.

(** ** The claims on examples *)

Section examples.
Import Example.

Local Ltac compute_eq := vm_compute; reflexivity.
Local Ltac compute_dec := apply (bool_decide_unpack _); vm_compute; exact I.














(** C9 on the store with a CSV file that has no zone column. *)
Lemma main_train_fatal_witness :
  ∃ e, main_train "data/*.csv" model_path bad_fs = (Raise e, bad_fs).
Proof.
  apply (main_train_fatal bad_fs "data/*.csv" model_path).
  right. exists "data/pjm_2.csv", no_zone_csv.
  split_and!; [compute_dec|compute_eq|]. right; left. compute_dec.
Defined.

End examples.

(** * Further properties of the program *)

(** ** Orders and sorted frames *)

Section lex_order.
Context {A B : Type} `{EqDecision A} (RA : relation A) (RB : relation B).

Global Instance lex_le_total `{!Total RA, !Total RB} : Total (lex_le RA RB).
Proof.
  intros [a1 b1] [a2 b2]. unfold lex_le; simpl.
  destruct (decide (a1 = a2)) as [->|Hne].
  - destruct (total RA a2 a2) as [Ha|Ha], (total RB b1 b2); tauto.
  - destruct (total RA a1 a2); [left|right]; split; congruence.
Qed.

Global Instance lex_le_trans `{!Transitive RA, !AntiSymm (=) RA, !Transitive RB} :
  Transitive (lex_le RA RB).
Proof.
  intros [a1 b1] [a2 b2] [a3 b3]. unfold lex_le; simpl.
  intros [H12 Hb12] [H23 Hb23]. split; [by etrans|].
  intros <-. assert (a1 = a2) as <- by by apply (anti_symm RA).
  etrans; eauto.
Qed.

Global Instance lex_le_antisymm `{!AntiSymm (=) RA, !AntiSymm (=) RB} :
  AntiSymm (=) (lex_le RA RB).
Proof.
  intros [a1 b1] [a2 b2]. unfold lex_le; simpl.
  intros [H12 Hb12] [H21 Hb21].
  assert (a1 = a2) as <- by by apply (anti_symm RA).
  f_equal. apply (anti_symm RB); auto.
Qed.
End lex_order.

Section key_order.
Context {A K : Type} (le : relation K) (key : A → K).

Global Instance key_le_total `{!Total le} : Total (key_le le key).
Proof. intros r1 r2. apply (total le). Qed.

Global Instance key_le_trans `{!Transitive le} : Transitive (key_le le key).
Proof. intros r1 r2 r3. unfold key_le. apply transitivity. Qed.

Lemma StronglySorted_key_le (l : list A) :
  StronglySorted le (key <$> l) → StronglySorted (key_le le key) l.
Proof.
  induction l as [|x l IH]; [constructor|].
  rewrite fmap_cons. intros [Hrest Hx]%StronglySorted_inv.
  constructor; [by apply IH|]. rewrite list.Forall_fmap in Hx. exact Hx.
Qed.

Lemma sort_values_sorted `{!RelDecision le, !Total le, !Transitive le} (df : list A) :
  StronglySorted (key_le le key) (sort_values le key df).
Proof. apply (StronglySorted_merge_sort (key_le le key)). Qed.
End key_order.

(** ** Zone names, again *)

Lemma is_lower_upper_ascii (c : ascii) : is_lower (upper_ascii c) = false.
Proof. by destruct c as [[] [] [] [] [] [] [] []]. Qed.

Lemma has_no_lower_upper (s : string) : has_no_lower (upper s).
Proof.
  unfold has_no_lower, upper. induction s as [|c s IH]; simpl; [constructor|].
  constructor; [apply is_lower_upper_ascii|done].
Qed.

Lemma first_char_upper (s : string) : first_char (upper s) = upper_ascii <$> first_char s.
Proof. by destruct s. Qed.

Lemma last_char_upper (s : string) : last_char (upper s) = upper_ascii <$> last_char s.
Proof.
  unfold upper. induction s as [|c s IH]; simpl; [done|].
  rewrite IH. by destruct (last_char s).
Qed.

Lemma last_char_None (s : string) : last_char s = None → s = EmptyString.
Proof. destruct s as [|c s]; simpl; [done|]. by destruct (last_char s). Qed.

Lemma first_char_lstrip (s : string) c :
  first_char (lstrip s) = Some c → is_space c = false.
Proof.
  induction s as [|c' s IH]; simpl; [done|].
  destruct (is_space c') eqn:Hc; [done|]. simpl. by intros [= <-].
Qed.

Lemma first_char_rstrip (s : string) c :
  first_char (rstrip s) = Some c → first_char s = Some c.
Proof.
  destruct s as [|c' s]; simpl; [done|].
  destruct (rstrip s); [|done]. by destruct (is_space c').
Qed.

Lemma last_char_rstrip (s : string) c :
  last_char (rstrip s) = Some c → is_space c = false.
Proof.
  induction s as [|c' s IH]; simpl; [done|].
  destruct (rstrip s) as [|c'' r] eqn:Hr.
  - destruct (is_space c') eqn:Hc; [done|]. simpl. by intros [= <-].
  - change (last_char (String c' (String c'' r))) with
      (match last_char (String c'' r) with Some x => Some x | None => Some c' end).
    destruct (last_char (String c'' r)) eqn:Hlast; [done|].
    by apply last_char_None in Hlast.
Qed.

Lemma is_trimmed_strip (s : string) : is_trimmed (strip s).
Proof.
  unfold strip. split.
  - intros c Hc%first_char_rstrip. by eapply first_char_lstrip.
  - apply last_char_rstrip.
Qed.

Lemma is_trimmed_upper (s : string) : is_trimmed s → is_trimmed (upper s).
Proof.
  intros [Hfirst Hlast]. split; intros c.
  - rewrite first_char_upper. destruct (first_char s) as [c'|]; [|done].
    intros [= <-]. rewrite is_space_upper_ascii. by apply Hfirst.
  - rewrite last_char_upper. destruct (last_char s) as [c'|]; [|done].
    intros [= <-]. rewrite is_space_upper_ascii. by apply Hlast.
Qed.

(** What the normal form of a zone name looks like. *)
Lemma normalize_zone_clean (s : string) :
  is_trimmed (normalize_zone s) ∧ has_no_lower (normalize_zone s).
Proof.
  unfold normalize_zone. split; [apply is_trimmed_upper, is_trimmed_strip|].
  apply has_no_lower_upper.
Qed.

(** ** Reading and loading the training files *)

Lemma elem_of_positions (c : string) (cols : list string) (i : nat) :
  i ∈ positions c cols ↔ cols !! i = Some c.
Proof.
  unfold positions. rewrite list_elem_of_fmap. split.
  - intros ([i' c'] & -> & [Hc Hin]%list_elem_of_filter). simpl in *. subst c'.
    apply elem_of_lookup_imap in Hin as (i & c'' & [= -> ->] & Hi). done.
  - intros Hi. exists (i, c). split; [done|]. apply list_elem_of_filter. split; [done|].
    by apply (elem_of_lookup_imap_2 pair).
Qed.

Lemma positions_nonempty (c : string) (cols : list string) :
  c ∈ cols → positions c cols ≠ [].
Proof.
  intros [i Hi]%list_elem_of_lookup Hnil.
  apply elem_of_positions in Hi. rewrite Hnil in Hi. by apply elem_of_nil in Hi.
Qed.

Lemma find_column_elem_of (candidates cols : list string) (c : string) :
  find_column candidates cols = Some c → c ∈ candidates ∧ c ∈ cols.
Proof.
  unfold find_column. destruct (list_find _ candidates) as [[i c']|] eqn:Hfind; [|done].
  intros [= <-]. apply list_find_Some in Hfind as (Hi & Hc & _).
  split; [|done]. by eapply list_elem_of_lookup_2.
Qed.

(** The first alias that the header has is the one taken. *)
Lemma find_column_first (candidates cols : list string) (c : string) :
  find_column candidates cols = Some c ↔
  ∃ i, candidates !! i = Some c ∧ c ∈ cols ∧
    ∀ j c', candidates !! j = Some c' → (j < i)%nat → c' ∉ cols.
Proof.
  unfold find_column. split.
  - destruct (list_find _ candidates) as [[i c']|] eqn:Hfind; [|done].
    intros [= <-]. apply list_find_Some in Hfind. by exists i.
  - intros (i & Hi & Hc & Hfirst).
    by rewrite (proj2 (list_find_Some _ _ i c) (conj Hi (conj Hc Hfirst))).
Qed.

Lemma three_singletons {A} (l1 l2 l3 : list A) (i j k : A) :
  l1 ≠ [] → l2 ≠ [] → l3 ≠ [] →
  (l1 ++ l2 ++ l3)%list = [i; j; k] → l1 = [i] ∧ l2 = [j] ∧ l3 = [k].
Proof.
  intros H1 H2 H3 Heq. pose proof (f_equal length Heq) as Hlen.
  rewrite !length_app in Hlen.
  destruct l1 as [|? [|? l1]], l2 as [|? [|? l2]], l3 as [|? [|? l3]];
    simpl in Hlen; try done; try lia.
  by simplify_eq/=.
Qed.

Section reading.
Context {Cell : Type} `{!Runtime Cell}.
Implicit Types (fs : Store Cell) (df : DataFrame Cell).

End reading.

Section loading.
Context {Cell : Type} `{!Runtime Cell}.
Implicit Types (fs : Store Cell).

Lemma load_pjm_glob_Ok fs pattern df :
  (load_pjm_glob pattern fs).1 = Ok df →
  ∃ frames, sorted (matches pattern fs) ≠ [] ∧
    mapM (read_frame fs) (sorted (matches pattern fs)) = Ok frames ∧
    df = dedup_sorted (mjoin frames).
Proof.
  rewrite load_pjm_glob_run. cbn [fst].
  destruct (sorted (matches pattern fs)) as [|p paths]; [done|].
  destruct (mapM _ _) as [frames|]; [|done].
  intros [= <-]. by exists frames.
Qed.

Lemma load_pjm_glob_record fs pattern df r :
  (load_pjm_glob pattern fs).1 = Ok df → r ∈ df →
  ∃ path frame, path ∈ matches pattern fs ∧ read_frame fs path = Ok frame ∧ r ∈ frame.
Proof.
  intros (frames & _ & Hframes & ->)%load_pjm_glob_Ok Hr.
  destruct (dedup_sorted_keys (mjoin frames)) as (_ & Hsub & _).
  apply Hsub, list_elem_of_join in Hr as (frame & Hr & Hframe).
  apply mapM_Ok_inv in Hframes.
  destruct (Forall2_elem_of_r _ _ _ _ Hframes Hframe) as (path & Hpath & Hread).
  exists path, frame. by rewrite <-elem_of_sorted.
Qed.


(** X3: [load_pjm_glob] writes nothing, whether it returns or raises; the
    frame it returns is sorted by zone and then by timestamp, and no two of
    its records have the same zone and timestamp. *)
Theorem load_pjm_glob_sorted fs pattern :
  (load_pjm_glob pattern fs).2 = fs ∧
  ∀ df, (load_pjm_glob pattern fs).1 = Ok df →
    StronglySorted (key_le (lex_le String.le Z.le) record_key) df ∧
    NoDup (record_key <$> df).
Proof.
  split; [by rewrite load_pjm_glob_run|].
  intros df (frames & _ & _ & ->)%load_pjm_glob_Ok. split.
  - apply (sort_values_sorted (lex_le String.le Z.le) record_key).
  - apply dedup_sorted_keys.
Qed.

(** A run of the [train] command. *)
Lemma main_train_run fs pattern out :
  main_train pattern out fs =
    match (load_pjm_glob pattern fs).1 with
    | Ok df =>
        (Ok (), {| files := <[out := ParquetFile (hist_avg df)]> (files fs);
                   dirs := dirs (with_dirs fs) |})
    | Raise e => (Raise e, fs)
    end.
Proof.
  unfold main_train. rewrite IO_bind_eq.
  destruct (load_pjm_glob pattern fs) as [r fs'] eqn:Hload.
  assert (fs' = fs) as -> by (by rewrite load_pjm_glob_run in Hload; injection Hload).
  simpl. by destruct r.
Qed.

End loading.

(** ** The model table *)

Section model_table.
Context {Cell : Type} `{!Runtime Cell}.
Implicit Types (fs : Store Cell).


End model_table.

(** ** More on the runs of [predict_day] *)

Lemma mapM_ext_elem {A B} (f g : A → result B) (l : list A) :
  (∀ x, x ∈ l → f x = g x) → mapM f l = mapM g l.
Proof.
  induction l as [|x l IH]; intros Hfg; [done|].
  cbn. rewrite (Hfg x) by left. destruct (g x); cbn; [|done].
  fold (mapM f l) (mapM g l). rewrite IH; [done|]. intros; apply Hfg. by right.
Qed.

Lemma mapM_fmap_result {A B C} (f : B → result C) (h : A → B) (l : list A) :
  mapM f (h <$> l) = mapM (f ∘ h) l.
Proof.
  induction l as [|x l IH]; [done|].
  cbn. destruct (f (h x)); cbn; [|done].
  fold (mapM f (h <$> l)) (mapM (f ∘ h) l). by rewrite IH.
Qed.

Lemma mapM_app_result {A B} (f : A → result B) (l1 l2 : list A) :
  mapM f (l1 ++ l2)%list =
    match mapM f l1, mapM f l2 with
    | Ok r1, Ok r2 => Ok (r1 ++ r2)%list
    | Raise e, _ => Raise e
    | Ok _, Raise e => Raise e
    end.
Proof.
  induction l1 as [|x l1 IH]; [cbn; by destruct (mapM f l2)|].
  cbn. destruct (f x); cbn; [|done].
  fold (mapM f (l1 ++ l2)%list) (mapM f l1). rewrite IH.
  by destruct (mapM f l1), (mapM f l2).
Qed.

Lemma elem_of_hour_slots (zs : list string) z k :
  (z, k) ∈ hour_slots zs ↔ z ∈ zs ∧ 0 ≤ k < 24.
Proof.
  unfold hour_slots. rewrite list_elem_of_bind. setoid_rewrite list_elem_of_bind.
  setoid_rewrite list_elem_of_singleton. setoid_rewrite elem_of_seqZ. split.
  - intros (z' & (k' & [= -> ->] & ?) & ?). split; [done|lia].
  - intros [? ?]. exists z. split; [|done]. exists k. split; [done|lia].
Qed.

Lemma length_hour_slots (zs : list string) :
  length (hour_slots zs) = (24 * length zs)%nat.
Proof.
  unfold hour_slots. induction zs as [|z zs IH]; [done|].
  rewrite bind_cons, length_app, IH. simpl. lia.
Qed.

Lemma hour_slots_app (zs1 zs2 : list string) :
  hour_slots (zs1 ++ zs2)%list = (hour_slots zs1 ++ hour_slots zs2)%list.
Proof. apply bind_app. Qed.

Lemma slots_by_hour (zs : list string) (t : Timestamp) :
  (z ← zs; ts ← date_range_hourly t; [(z, ts)]) =
    (λ zk : string * Z, (zk.1, t + zk.2 * hour_ns)) <$> hour_slots zs.
Proof.
  unfold hour_slots, date_range_hourly. induction zs as [|z zs IH]; [done|].
  rewrite !bind_cons, fmap_app, IH. f_equal.
Qed.

Lemma ts_date_normalize (d : Timestamp) : ts_date (normalize d) = ts_date d.
Proof.
  unfold ts_date, normalize, day_ns, hour_ns. Z.div_mod_to_equations. lia.
Qed.

Lemma ts_date_slot (d : Timestamp) (k : Z) :
  0 ≤ k < 24 → ts_date (normalize d + k * hour_ns) = ts_date d.
Proof.
  intros Hk. unfold ts_date, normalize, day_ns, hour_ns. Z.div_mod_to_equations. lia.
Qed.

Lemma on_the_hour_slot (d : Timestamp) (k : Z) :
  (normalize d + k * hour_ns) `mod` hour_ns = 0.
Proof. unfold normalize, day_ns, hour_ns. Z.div_mod_to_equations. lia. Qed.

(** The rows of a run, slot by slot. *)
Lemma chain_rows_by_hour (means : list MeanRow) (date : Timestamp)
    (zones : option (list string)) :
  chain_rows means date zones =
    mapM (value_row means date) (hour_slots (zones_of means zones)).
Proof.
  unfold chain_rows. rewrite slots_by_hour, mapM_fmap_result.
  apply mapM_ext_elem. intros [z k] [_ Hk]%elem_of_hour_slots.
  unfold chain_row, value_row, slot_row, compose; simpl.
  by rewrite ts_hour_slot, dayofweek_normalize.
Qed.

Lemma value_row_Ok (means : list MeanRow) (date : Timestamp) zk r :
  value_row means date zk = Ok r ↔
  ∃ pred, fallback_chain means (dayofweek date) zk.1 zk.2 = Some pred ∧
    r = slot_row date zk.1 zk.2 (round pred).
Proof.
  unfold value_row. destruct (fallback_chain _ _ _ _) as [pred|].
  - split; [intros [= <-]; by exists pred|]. by intros (? & [= <-] & ->).
  - split; [done|]. by intros (? & ? & _).
Qed.

Lemma mapM_related {A B C} (f g : A → result B) (h : B → C) (l : list A) (ys : list B) :
  (∀ x y, x ∈ l → f x = Ok y → ∃ y', g x = Ok y' ∧ h y' = h y) →
  mapM f l = Ok ys → ∃ ys', mapM g l = Ok ys' ∧ h <$> ys' = h <$> ys.
Proof.
  revert ys. induction l as [|x l IH]; intros ys Hfg; cbn.
  - intros [= <-]. by exists [].
  - destruct (f x) as [y|] eqn:Hfx; cbn; [|done].
    fold (mapM f l) (mapM g l). destruct (mapM f l) as [ys0|] eqn:Hl; cbn; [|done].
    intros [= <-]. destruct (Hfg x y) as (y' & -> & Hy); [left|done|].
    destruct (IH ys0) as (ys' & -> & Hys); [|done|].
    { intros x' y0 Hx'. apply Hfg. by right. }
    exists (y' :: ys'). split; [done|]. by rewrite !fmap_cons, Hy, Hys.
Qed.

Lemma mapM_Raise_inv {A B} (f : A → result B) (l : list A) (e : exn) :
  mapM f l = Raise e → ∃ x, x ∈ l ∧ f x = Raise e.
Proof.
  induction l as [|x l IH]; cbn; [done|].
  destruct (f x) as [y|e'] eqn:Hfx; cbn.
  - fold (mapM f l). destruct (mapM f l) as [ys|e'] eqn:Hl; cbn; [done|].
    intros [= ->]. destruct IH as (x' & ? & ?); [done|].
    exists x'. split; [by right|done].
  - intros [= ->]. exists x. split; [left|done].
Qed.

Section predictor_more.
Context {Cell : Type} `{!Runtime Cell}.
Implicit Types (fs : Store Cell) (means : list MeanRow).

(** A run of [predict_day], whatever the store holds at the model path. *)
Lemma predict_day_cases fs date model_path zones out_csv :
  predict_day date model_path zones out_csv fs =
    match files fs !! model_path with
    | Some (ParquetFile means) =>
        match chain_rows means date zones with
        | Ok rows =>
            (Ok rows,
             {| files := <[predictions_path date out_csv := PredictionFile rows]> (files fs);
                dirs := dirs (with_dirs fs) |})
        | Raise e => (Raise e, with_dirs fs)
        end
    | Some _ => (Raise ParserError, with_dirs fs)
    | None => (Raise FileNotFoundError, with_dirs fs)
    end.
Proof.
  destruct (files fs !! model_path) as [[df|means|rows]|] eqn:Hfile.
  - unfold predict_day, mbind, IO_bind, ensure_dirs, read_parquet. simpl. by rewrite Hfile.
  - by apply predict_day_run.
  - unfold predict_day, mbind, IO_bind, ensure_dirs, read_parquet. simpl. by rewrite Hfile.
  - unfold predict_day, mbind, IO_bind, ensure_dirs, read_parquet. simpl. by rewrite Hfile.
Qed.

Lemma chain_rows_no_zones means date zones :
  zones_of means zones = [] → chain_rows means date zones = Ok [].
Proof. intros Hz. by rewrite chain_rows_by_hour, Hz. Qed.

Lemma chain_rows_returns_iff means date zones :
  (∃ rows, chain_rows means date zones = Ok rows) ↔
  zones_of means zones = [] ∨ covers_hours means.
Proof.
  split.
  - intros [rows Hrows].
    destruct (decide (zones_of means zones = [])) as [|Hz]; [by left|right].
    destruct (decide (covers_hours means)) as [|Hcov]; [done|]. exfalso.
    apply not_Forall_Exists in Hcov; [|apply _].
    apply list.Exists_exists in Hcov as (hr & [? ?]%elem_of_seqZ & Hhr).
    destruct (zones_of means zones) as [|z zs] eqn:Hzs; [done|].
    rewrite chain_rows_by_hour, Hzs in Hrows. apply mapM_Ok_inv in Hrows.
    assert ((z, hr) ∈ hour_slots (z :: zs)) as Hin.
    { apply elem_of_hour_slots. split; [left|lia]. }
    apply list_elem_of_lookup in Hin as [i Hi].
    destruct (Forall2_lookup_l _ _ _ _ _ Hrows Hi) as (r & _ & Hr).
    apply value_row_Ok in Hr as (pred & Hpred & _). simpl in Hpred.
    apply (filter_key_nil hour) in Hhr. fold (hour_rows means hr) in Hhr.
    pose proof (zone_hour_rows_hour _ z _ Hhr) as Hzh.
    unfold fallback_chain in Hpred.
    by rewrite (exact_rows_zone_hour _ _ _ _ Hzh), Hzh, Hhr in Hpred.
  - intros [Hz|Hcov].
    + exists []. by apply chain_rows_no_zones.
    + destruct (chain_rows_Ok means date zones Hcov) as (rows & Hrows & _). by exists rows.
Qed.


(** X8: a run of [predict_day] makes the two directories and touches no
    file but the one it writes the predictions to: every other file is as it
    was, in every case, and when the run raises no file is changed at all.
    Without a file at the model path it raises [FileNotFoundError]. *)
Theorem predict_day_writes_only_output fs date model_path zones out_csv :
  let run := predict_day date model_path zones out_csv fs in
  (∀ p, p ≠ predictions_path date out_csv → files run.2 !! p = files fs !! p) ∧
  dirs run.2 = {["models"]} ∪ ({["predictions"]} ∪ dirs fs) ∧
  (∀ e, run.1 = Raise e → files run.2 = files fs) ∧
  (files fs !! model_path = None → run.1 = Raise FileNotFoundError).
Proof.
  intros run. subst run. rewrite predict_day_cases.
  destruct (files fs !! model_path) as [[df|means|rows]|]; simpl; try done.
  destruct (chain_rows means date zones) as [rows|e]; simpl; [|done].
  split_and!; [|done..]. intros p Hp. by rewrite lookup_insert_ne.
Qed.



(** X11: the zones of a run do not bear on one another. The frame for a
    zone list in two parts is the frame for the first part followed by the
    frame for the second, and the run raises when the run for either part
    does. *)
Theorem predict_day_zones_app fs date model_path means zones1 zones2 out_csv :
  holds_model fs model_path means →
  (predict_day date model_path (Some (zones1 ++ zones2)%list) out_csv fs).1 =
    match (predict_day date model_path (Some zones1) out_csv fs).1,
          (predict_day date model_path (Some zones2) out_csv fs).1 with
    | Ok rows1, Ok rows2 => Ok (rows1 ++ rows2)%list
    | Raise e, _ => Raise e
    | Ok _, Raise e => Raise e
    end.
Proof.
  intros Hmodel. rewrite !(predict_day_run _ _ _ _ _ _ Hmodel).
  rewrite !chain_rows_by_hour. unfold zones_of; simpl.
  rewrite hour_slots_app, mapM_app_result.
  by destruct (mapM _ (hour_slots zones1)), (mapM _ (hour_slots zones2)).
Qed.
End predictor_more.

(** ** The command line *)

Lemma lstrip_first_char (s : string) :
  (∀ c, first_char s = Some c → is_space c = false) → lstrip s = s.
Proof. destruct s as [|c s]; simpl; [done|]. intros Hc. by rewrite (Hc c). Qed.

Lemma rstrip_last_char (s : string) :
  (∀ c, last_char s = Some c → is_space c = false) → rstrip s = s.
Proof.
  induction s as [|c s IH]; simpl; [done|].
  destruct (last_char s) as [c'|] eqn:Hlast.
  - intros Hc. rewrite IH by done. destruct s; [done|done].
  - intros Hc. apply last_char_None in Hlast as ->. simpl. by rewrite (Hc c).
Qed.

Lemma strip_trimmed (s : string) : is_trimmed s → strip s = s.
Proof.
  intros [Hfirst Hlast]. unfold strip.
  rewrite lstrip_first_char by done. by apply rstrip_last_char.
Qed.

Lemma lstrip_spaces (s : string) :
  Forall (λ c, is_space c = true) (list_ascii_of_string s) → lstrip s = EmptyString.
Proof.
  induction s as [|c s IH]; simpl; [done|].
  intros [Hc Hs]%list.Forall_cons. rewrite Hc. by apply IH.
Qed.

Lemma split_comma_spaces (s : string) :
  Forall (λ c, c = ","%char ∨ is_space c = true) (list_ascii_of_string s) →
  Forall (λ piece, Forall (λ c, is_space c = true) (list_ascii_of_string piece))
    (split_comma s).
Proof.
  induction s as [|c s IH]; simpl.
  - intros _. by repeat constructor.
  - intros [Hc Hs]%list.Forall_cons. specialize (IH Hs).
    case_decide as Hcomma; [by constructor|].
    destruct Hc as [?|Hc]; [done|].
    destruct (split_comma s) as [|piece pieces]; [by repeat constructor|].
    apply list.Forall_cons in IH as [Hpiece Hpieces].
    constructor; [|done]. simpl. by constructor.
Qed.

Lemma split_comma_free (s : string) :
  ","%char ∉ list_ascii_of_string s → split_comma s = [s].
Proof.
  induction s as [|c s IH]; simpl; [done|].
  intros [Hc Hs]%not_elem_of_cons. rewrite decide_False by done.
  by rewrite IH.
Qed.

Lemma split_comma_app (z s : string) :
  ","%char ∉ list_ascii_of_string z →
  split_comma (z +:+ String "," s) = z :: split_comma s.
Proof.
  induction z as [|c z IH]; simpl; [done|].
  intros [Hc Hz]%not_elem_of_cons. rewrite decide_False by done.
  change (String.app z (String "," s)) with (z +:+ String "," s).
  by rewrite IH.
Qed.

Lemma split_comma_join (zs : list string) :
  zs ≠ [] → Forall (λ z, ","%char ∉ list_ascii_of_string z) zs →
  split_comma (String.concat "," zs) = zs.
Proof.
  induction zs as [|z zs IH]; [done|]. intros _ [Hz Hzs]%list.Forall_cons.
  destruct zs as [|z' zs]; [by apply split_comma_free|].
  change (String.concat "," (z :: z' :: zs))
    with (z +:+ String "," (String.concat "," (z' :: zs))).
  rewrite split_comma_app by done. by rewrite IH.
Qed.


(** X14: a list of zones that are not empty, have no white space at either
    end and no comma comes back from [parse_zones] when it is written with
    commas between the zones. *)
Theorem parse_zones_join (zs : list string) :
  zs ≠ [] →
  Forall (λ z, z ≠ EmptyString ∧ is_trimmed z ∧ ","%char ∉ list_ascii_of_string z) zs →
  parse_zones (Some (String.concat "," zs)) = Some zs.
Proof.
  intros Hne Hzs.
  assert (split_comma (String.concat "," zs) = zs) as Hsplit.
  { apply split_comma_join; [done|]. eapply List.Forall_impl; [|exact Hzs]. by intros z (_ & _ & Hz). }
  assert (filter (λ z, z ≠ EmptyString) (strip <$> zs) = zs) as Hfilter.
  { clear Hne Hsplit. induction Hzs as [|z zs (Hz & Htrim & _) _ IH]; [done|].
    rewrite fmap_cons, (strip_trimmed z Htrim), filter_cons_True by done.
    by rewrite IH. }
  unfold parse_zones. destruct (String.concat "," zs) as [|c s] eqn:Hjoin.
  - destruct zs as [|z zs]; [done|]. simpl in Hsplit. by injection Hsplit as <- <-.
  - by rewrite Hsplit, Hfilter.
Qed.

Section command_line_facts.
Context {Cell : Type} `{!Runtime Cell}.
Implicit Types (fs : Store Cell).

(** A run of the [predict] command. *)
Lemma main_predict_run fs date model zones out :
  main (Predict date model zones out) fs =
    let run := predict_day date (default BASELINE_PARQUET model) (parse_zones zones) out fs in
    (match run.1 with Ok _ => Ok () | Raise e => Raise e end, run.2).
Proof.
  unfold main. rewrite IO_bind_eq.
  destruct (predict_day _ _ _ _ fs) as [[rows|e] fs']; done.
Qed.

End command_line_facts.

(** ** Training, then predicting *)

Lemma zones_of_hist_avg_nil df : zones_of (hist_avg df) None = [] ↔ df = [].
Proof.
  split; [|by intros ->].
  intros Hnil. destruct df as [|r df]; [done|]. exfalso.
  assert (group_key r ∈ mean_key <$> hist_avg (r :: df))
    as (row & Hkey & Hrow)%list_elem_of_fmap
    by (apply hist_avg_key_elem_of; rewrite fmap_cons; left).
  assert (m_zone row ∈ zones_of (hist_avg (r :: df)) None) as Hin
    by by apply zones_of_default, list_elem_of_fmap_2.
  rewrite Hnil in Hin. by apply elem_of_nil in Hin.
Qed.

Section train_then_predict.
Context {Cell : Type} `{!Runtime Cell}.
Implicit Types (fs : Store Cell).

End train_then_predict.

(** ** More on loading *)

Lemma mapM_Ok_iff {A B} (f : A → result B) (l : list A) :
  (∃ ys, mapM f l = Ok ys) ↔ ∀ x, x ∈ l → ∃ y, f x = Ok y.
Proof.
  split.
  - intros [ys Hys] x Hx. destruct (f x) as [y|e] eqn:Hfx; [by exists y|].
    destruct (mapM_some_Raise f l x e Hx Hfx) as [e' He']. congruence.
  - intros Hall. destruct (mapM f l) as [ys|e] eqn:Hl; [by exists ys|].
    apply mapM_Raise_inv in Hl as (x & Hx & Hfx).
    destruct (Hall x Hx) as [y Hy]. congruence.
Qed.

Lemma sorted_nil (l : list string) : sorted l = [] ↔ l = [].
Proof.
  unfold sorted. split; [|by intros ->].
  intros Hnil. apply Permutation_nil_r. rewrite <-Hnil.
  by rewrite merge_sort_Permutation.
Qed.

Lemma sorted_Permutation (l1 l2 : list string) : l1 ≡ₚ l2 → sorted l1 = sorted l2.
Proof.
  intros Hperm. unfold sorted. apply (Sorted_unique String.le).
  - apply (Sorted_merge_sort String.le).
  - apply (Sorted_merge_sort String.le).
  - by rewrite !merge_sort_Permutation.
Qed.

Section loading_more.
Context {Cell : Type} `{!Runtime Cell}.
Implicit Types (fs : Store Cell).


(** X17: of the records that the matched files have for one zone and
    timestamp, [load_pjm_glob] keeps the one read first, the files taken in
    the order of their sorted paths; and it keeps one for each zone and
    timestamp that occurs. *)
Theorem load_pjm_glob_keeps_first fs pattern df :
  (load_pjm_glob pattern fs).1 = Ok df →
  ∃ frames : list (list TrainingRecord),
    mapM (read_frame fs) (sorted (matches pattern fs)) = Ok frames ∧
    (∀ k, k ∈ record_key <$> df ↔ k ∈ record_key <$> mjoin frames) ∧
    ∀ r, r ∈ df →
      ∃ i, mjoin frames !! i = Some r ∧
        ∀ j r', (j < i)%nat → mjoin frames !! j = Some r' → record_key r' ≠ record_key r.
Proof.
  intros (frames & _ & Hframes & ->)%load_pjm_glob_Ok.
  exists frames. split; [done|]. split.
  - apply dedup_sorted_keys.
  - apply dedup_sorted_first.
Qed.
End loading_more.

(** ** More on predicting *)

Lemma normalize_ts_date (d : Timestamp) : normalize d = ts_date d * day_ns.
Proof. unfold normalize, ts_date, day_ns, hour_ns. Z.div_mod_to_equations. lia. Qed.

Section predictor_again.
Context {Cell : Type} `{!Runtime Cell}.
Implicit Types (fs : Store Cell).

(** X18: [predict_day] takes the day of its date and nothing else of it:
    two dates within one day give the same run. *)
Theorem predict_day_time_of_day fs date1 date2 model_path zones out_csv :
  ts_date date1 = ts_date date2 →
  predict_day date1 model_path zones out_csv fs =
  predict_day date2 model_path zones out_csv fs.
Proof.
  intros Hday. unfold predict_day.
  assert (normalize date1 = normalize date2) as ->
    by (by rewrite !normalize_ts_date, Hday).
  done.
Qed.

(** X19: a run of [predict_day] that returned can be run again on the
    store it left, with the same frame and the same store, unless the
    predictions went to the path of the model: nothing guards against that,
    the model is then lost and the next run raises. *)
Theorem predict_day_again fs date model_path means zones out_csv rows fs1 :
  holds_model fs model_path means →
  predict_day date model_path zones out_csv fs = (Ok rows, fs1) →
  (predictions_path date out_csv ≠ model_path →
     predict_day date model_path zones out_csv fs1 = (Ok rows, fs1)) ∧
  (predictions_path date out_csv = model_path →
     files fs1 !! model_path = Some (PredictionFile rows) ∧
     ∃ e, predict_day date model_path zones out_csv fs1 = (Raise e, with_dirs fs1)).
Proof.
  intros Hmodel. rewrite (predict_day_run _ _ _ _ _ _ Hmodel).
  destruct (chain_rows means date zones) as [rows'|e] eqn:Hrows; [|done].
  intros [= <- <-]. split.
  - intros Hne. rewrite (predict_day_run _ _ _ means).
    + rewrite Hrows. f_equal. cbn [files dirs with_dirs]. f_equal.
      * apply insert_insert_eq.
      * apply set_eq. intros x. rewrite !elem_of_union. tauto.
    + unfold holds_model. cbn [files]. by rewrite lookup_insert_ne.
  - intros Heq. rewrite predict_day_cases. cbn [files]. rewrite Heq.
    rewrite lookup_insert_eq. split; [done|by eexists].
Qed.
End predictor_again.

(** ** What training reads *)

Section training_reads.
Context {Cell : Type} `{!Runtime Cell}.
Implicit Types (fs : Store Cell).

Lemma elem_of_matches fs pattern path :
  path ∈ matches pattern fs ↔ fnmatch pattern path = true ∧ is_Some (files fs !! path).
Proof.
  unfold matches. rewrite list_elem_of_filter, list_elem_of_fmap. split.
  - intros [Hmatch ([p f] & -> & Hin)]. split; [done|].
    apply elem_of_map_to_list in Hin. by exists f.
  - intros [Hmatch [f Hf]]. split; [done|].
    exists (path, f). split; [done|]. by apply elem_of_map_to_list.
Qed.

Lemma NoDup_matches fs pattern : NoDup (matches pattern fs).
Proof. unfold matches. apply list.NoDup_filter, NoDup_fst_map_to_list. Qed.

Lemma read_frame_agree fs fs' path :
  files fs !! path = files fs' !! path → read_frame fs path = read_frame fs' path.
Proof.
  intros Hfile. unfold read_frame, read_std_pjm, mbind, IO_bind, read_csv, require, lift.
  rewrite Hfile. destruct (files fs' !! path) as [[df| |]|]; try done.
  destruct (find_column timestamp_aliases (lower <$> columns df)); simpl; [|done].
  destruct (find_column zone_aliases (lower <$> columns df)); simpl; [|done].
  destruct (find_column load_aliases (lower <$> columns df)); simpl; [|done].
  by repeat case_match.
Qed.

(** The frame loaded depends on the matched files only. *)
Lemma load_pjm_glob_agree fs fs' pattern :
  (∀ path, fnmatch pattern path = true → files fs !! path = files fs' !! path) →
  (load_pjm_glob pattern fs).1 = (load_pjm_glob pattern fs').1.
Proof.
  intros Hagree. rewrite !load_pjm_glob_run. cbn [fst].
  assert (matches pattern fs ≡ₚ matches pattern fs') as Hperm.
  { apply NoDup_Permutation; [apply NoDup_matches..|].
    intros path. rewrite !elem_of_matches. split.
    - intros [Hmatch Hfile]. by rewrite <-(Hagree path Hmatch).
    - intros [Hmatch Hfile]. by rewrite (Hagree path Hmatch). }
  rewrite (sorted_Permutation _ _ Hperm).
  assert (mapM (read_frame fs) (sorted (matches pattern fs')) =
          mapM (read_frame fs') (sorted (matches pattern fs'))) as Hread.
  { apply mapM_ext_elem. intros path [Hmatch _]%elem_of_sorted%elem_of_matches.
    by apply read_frame_agree, Hagree. }
  destruct (sorted (matches pattern fs')) as [|p paths]; [done|]. by rewrite Hread.
Qed.


End training_reads.

(** ** The further properties on the example stores *)

Section further_examples.
Import Example.

Local Ltac compute_eq := vm_compute; reflexivity.
Local Ltac compute_dec := apply (bool_decide_unpack _); vm_compute; exact I.






(** X11 on the full model: the zones MZ and AB. *)
Lemma predict_day_zones_app_witness :
  (predict_day monday model_path (Some (["MZ"] ++ ["AB"])%list) None full_fs).1 =
    match (predict_day monday model_path (Some ["MZ"]) None full_fs).1,
          (predict_day monday model_path (Some ["AB"]) None full_fs).1 with
    | Ok rows1, Ok rows2 => Ok (rows1 ++ rows2)%list
    | Raise e, _ => Raise e
    | Ok _, Raise e => Raise e
    end.
Proof.
  apply (predict_day_zones_app full_fs monday model_path full_model ["MZ"] ["AB"] None).
  compute_eq.
Defined.


(** X14 on the zones MZ and AB. *)
Lemma parse_zones_join_witness :
  parse_zones (Some (String.concat "," ["MZ"; "AB"])) = Some ["MZ"; "AB"].
Proof.
  apply (parse_zones_join ["MZ"; "AB"]); [done|].
  repeat constructor; try done; try (by intros c [= <-]).
  - intros Hin. repeat (apply elem_of_cons in Hin as [Hin|Hin]; [discriminate Hin|]).
    by apply elem_of_nil in Hin.
  - intros Hin. repeat (apply elem_of_cons in Hin as [Hin|Hin]; [discriminate Hin|]).
    by apply elem_of_nil in Hin.
Defined.


(** X17 on the first CSV file. *)
Lemma load_pjm_glob_keeps_first_witness :
  ∃ frames : list (list TrainingRecord),
    mapM (read_frame pjm_fs) (sorted (matches "data/*.csv" pjm_fs)) = Ok frames ∧
    (∀ k, k ∈ record_key <$> pjm_df ↔ k ∈ record_key <$> mjoin frames) ∧
    ∀ r, r ∈ pjm_df →
      ∃ i, mjoin frames !! i = Some r ∧
        ∀ j r', (j < i)%nat → mjoin frames !! j = Some r' → record_key r' ≠ record_key r.
Proof. apply (load_pjm_glob_keeps_first pjm_fs "data/*.csv" pjm_df). compute_eq. Defined.

(** X18 on the full model: the Monday at midnight and at five o'clock. *)
Lemma predict_day_time_of_day_witness :
  predict_day monday model_path None None full_fs =
  predict_day (monday + 5 * hour_ns) model_path None None full_fs.
Proof.
  apply (predict_day_time_of_day full_fs monday (monday + 5 * hour_ns) model_path None None).
  compute_eq.
Defined.

(** X19 on the full model: a Monday, the default zones and path. *)
Lemma predict_day_again_witness :
  let fs1 := (predict_day monday model_path None None full_fs).2 in
  (predictions_path monday None ≠ model_path →
     predict_day monday model_path None None fs1 = (Ok monday_rows, fs1)) ∧
  (predictions_path monday None = model_path →
     files fs1 !! model_path = Some (PredictionFile monday_rows) ∧
     ∃ e, predict_day monday model_path None None fs1 = (Raise e, with_dirs fs1)).
Proof.
  apply (predict_day_again full_fs monday model_path full_model None None monday_rows);
    compute_eq.
Defined.


End further_examples.
